(** * Collaboration-signal extractors of [helper.py]

    A shallow embedding of the five extractors of [helper.py] together with
    the properties claimed for them.  The extractors work on parsed JSON
    documents, so the embedding is dynamically typed like the program: every
    record is a Python [dict] with string keys, a lookup of a missing key
    with [d[k]] raises, [d.get(k, default)] does not, and an operation
    applied to a value of the wrong type raises too. *)

From Stdlib Require Import ZArith String Ascii.
From stdpp Require Import gmap strings list fin_maps sorting.

Set Warnings "-register-all,-clear-no-such-hyp".
Open Scope string_scope.
Open Scope list_scope.

(** ** Python values and exceptions *)

(** The values [json.load] produces.  Numbers are integers here: none of
    the extractors computes with a number read from the documents. *)
Inductive value :=
| VNone
| VBool (b : bool)
| VInt (z : Z)
| VStr (s : string)
| VList (l : list value)
| VDict (d : gmap string value).

Inductive exn :=
| KeyError (k : value)
| TypeError
| AttributeError
| IndexError.

Inductive result (A : Type) :=
| Ok (a : A)
| Raise (e : exn).
Arguments Ok {A} a.
Arguments Raise {A} e.

#[export] Instance result_ret : MRet result := λ A a, Ok a.
#[export] Instance result_bind : MBind result := λ A B f m,
  match m with
  | Ok a => f a
  | Raise e => Raise e
  end.

Definition raises {A} (r : result A) : Prop :=
  match r with
  | Ok _ => False
  | Raise _ => True
  end.

Module Py.
Local Open Scope Z_scope.

(** [d.get(k, default)]: only a dict has the method. *)
Definition get (v : value) (k : string) (dflt : value) : result value :=
  match v with
  | VDict d => Ok (default dflt (d !! k))
  | _ => Raise AttributeError
  end.

(** [v[k]] for a string [k]. *)
Definition getitem (v : value) (k : string) : result value :=
  match v with
  | VDict d =>
      match d !! k with
      | Some x => Ok x
      | None => Raise (KeyError (VStr k))
      end
  | _ => Raise TypeError
  end.

(** [v == s] for a [str] [s]: among the values above only an equal
    string compares equal to a string. *)
Definition eq_str (v : value) (s : string) : bool :=
  match v with
  | VStr t => bool_decide (t = s)
  | _ => false
  end.

(** Truth value of [v] in a condition. *)
Definition truthy (v : value) : bool :=
  match v with
  | VNone => false
  | VBool b => b
  | VInt z => negb (z =? 0)
  | VStr s => negb (bool_decide (s = ""))
  | VList l => negb (bool_decide (l = []))
  | VDict d => negb (bool_decide (d = ∅))
  end.

Definition chars (s : string) : list value :=
  (λ c, VStr (String c "")) <$> list_ascii_of_string s.

(** The elements [for x in v] visits.  A dict yields its keys; their
    order of insertion is not recorded in [gmap], and no extractor can
    tell it: each of them calls [.get] on the element first, which a
    string does not have. *)
Definition iter (v : value) : result (list value) :=
  match v with
  | VList l => Ok l
  | VStr s => Ok (chars s)
  | VDict d => Ok (VStr <$> (map_to_list d).*1)
  | _ => Raise TypeError
  end.

Definition len (v : value) : result Z :=
  match v with
  | VList l => Ok (Z.of_nat (length l))
  | VStr s => Ok (Z.of_nat (String.length s))
  | VDict d => Ok (Z.of_nat (size d))
  | _ => Raise TypeError
  end.

(** [l[lo:hi]]: a negative bound counts from the end, and both bounds
    are clamped to the sequence. *)
Definition clamp (n i : Z) : Z :=
  if i <? 0 then Z.max (i + n) 0 else Z.min i n.

Definition slice {A} (l : list A) (lo hi : Z) : list A :=
  let n := Z.of_nat (length l) in
  take (Z.to_nat (clamp n hi - clamp n lo)) (drop (Z.to_nat (clamp n lo)) l).

Definition str_slice (s : string) (lo hi : Z) : string :=
  string_of_list_ascii (slice (list_ascii_of_string s) lo hi).

Definition getslice (v : value) (lo hi : Z) : result value :=
  match v with
  | VList l => Ok (VList (slice l lo hi))
  | VStr s => Ok (VStr (str_slice s lo hi))
  | _ => Raise TypeError
  end.

(** [v[i]] for an integer [i]; the keys of a dict read from JSON are
    strings, so no integer is among them. *)
Definition index (v : value) (i : Z) : result value :=
  match v with
  | VList l =>
      let n := Z.of_nat (length l) in
      let j := if i <? 0 then i + n else i in
      if (0 <=? j) && (j <? n)
      then match l !! Z.to_nat j with
           | Some x => Ok x
           | None => Raise IndexError
           end
      else Raise IndexError
  | VStr s =>
      let n := Z.of_nat (String.length s) in
      let j := if i <? 0 then i + n else i in
      if (0 <=? j) && (j <? n)
      then match String.get (Z.to_nat j) s with
           | Some c => Ok (VStr (String c ""))
           | None => Raise IndexError
           end
      else Raise IndexError
  | VDict _ => Raise (KeyError (VInt i))
  | _ => Raise TypeError
  end.

(** [v + s] and [s + v] for a [str] [s]. *)
Definition add_str (v : value) (s : string) : result string :=
  match v with
  | VStr t => Ok (t +:+ s)
  | _ => Raise TypeError
  end.

Definition str_add (s : string) (v : value) : result string :=
  match v with
  | VStr t => Ok (s +:+ t)
  | _ => Raise TypeError
  end.

(** [needle in hay] on strings: [needle] occurs in [hay] as a
    contiguous run of characters. *)
Fixpoint str_in (needle hay : string) : bool :=
  String.prefix needle hay ||
  match hay with
  | EmptyString => false
  | String _ hay' => str_in needle hay'
  end.

(** [v in s] for a [str] [s]. *)
Definition in_str (v : value) (s : string) : result bool :=
  match v with
  | VStr t => Ok (str_in t s)
  | _ => Raise TypeError
  end.

Definition enumerate {A} (l : list A) : list (nat * A) :=
  imap (λ i x, (i, x)) l.

(** [for x in l: s = body x s], stopping at the first exception. *)
Fixpoint for_each {A S} (l : list A) (body : A → S → result S) (s : S)
  : result S :=
  match l with
  | [] => Ok s
  | x :: l' => s' ← body x s; for_each l' body s'
  end.

End Py.

(** ** [get_user_github_commits] *)

Definition commit_view (commit : value) : result value :=
  sha ← Py.getitem commit "sha";
  date ← Py.getitem commit "date";
  message ← Py.getitem commit "commit_message";
  files_changed ← Py.getitem commit "files_changed";
  lines_added ← Py.getitem commit "lines_added";
  lines_deleted ← Py.getitem commit "lines_deleted";
  area ← Py.getitem commit "area";
  codediff ← Py.getitem commit "codediff";
  Ok (VDict {[ "sha" := sha; "date" := date; "message" := message;
               "files_changed" := files_changed;
               "lines_added" := lines_added;
               "lines_deleted" := lines_deleted;
               "area" := area; "codediff" := codediff ]}).

Definition github_commits_step (user_id : string) (commit : value)
    (out : list value) : result (list value) :=
  author ← Py.get commit "author" VNone;
  if Py.eq_str author user_id
  then r ← commit_view commit; Ok (out ++ [r])
  else Ok out.

Definition get_user_github_commits (github_data : value) (user_id : string)
  : result (list value) :=
  commits ← Py.get github_data "commits" (VList []);
  cs ← Py.iter commits;
  Py.for_each cs (github_commits_step user_id) [].

(** ** [get_user_slack_messages] *)

Definition slack_messages_step (user_id : string) (channel msg : value)
    (user_messages : list value) : result (list value) :=
  u ← Py.get msg "user" VNone;
  if Py.eq_str u user_id
  then
    cid ← Py.getitem channel "channel_id";
    ts ← Py.getitem msg "ts";
    text ← Py.getitem msg "text";
    cc ← Py.get msg "contains_code" (VBool false);
    Ok (user_messages ++
        [VDict {[ "channel" := cid; "timestamp" := ts; "text" := text;
                  "contains_code" := cc ]}])
  else Ok user_messages.

Definition slack_messages_channel (user_id : string) (channel : value)
    (user_messages : list value) : result (list value) :=
  messages ← Py.get channel "messages" (VList []);
  ms ← Py.iter messages;
  Py.for_each ms (slack_messages_step user_id channel) user_messages.

Definition get_user_slack_messages (slack_data : value) (user_id : string)
  : result (list value) :=
  channels ← Py.get slack_data "channels" (VList []);
  chs ← Py.iter channels;
  Py.for_each chs (slack_messages_channel user_id) [].

(** ** [get_user_received_code] *)

(** The loop over [messages[i + 1:i + 4]]; it ends at the first follow-up
    of the user ([break]). *)
Fixpoint received_scan (user_id : string) (channel msg : value)
    (follow_ups : list value) (received_code : list value)
  : result (list value) :=
  match follow_ups with
  | [] => Ok received_code
  | follow_up :: rest =>
      u ← Py.get follow_up "user" VNone;
      if Py.eq_str u user_id
      then
        cid ← Py.getitem channel "channel_id";
        from_user ← Py.getitem msg "user";
        code_snippet ← Py.getitem msg "text";
        ack ← Py.getitem follow_up "text";
        Ok (received_code ++
            [VDict {[ "channel" := cid; "from_user" := from_user;
                      "code_snippet" := code_snippet;
                      "acknowledged_by_user" := ack ]}])
      else received_scan user_id channel msg rest received_code
  end.

Definition received_step (user_id : string) (channel messages : value)
    (im : nat * value) (received_code : list value) : result (list value) :=
  let '(i, msg) := im in
  cc ← Py.get msg "contains_code" VNone;
  if Py.truthy cc
  then
    u ← Py.get msg "user" VNone;
    if negb (Py.eq_str u user_id)
    then
      window ← Py.getslice messages (Z.of_nat i + 1) (Z.of_nat i + 4);
      follow_ups ← Py.iter window;
      received_scan user_id channel msg follow_ups received_code
    else Ok received_code
  else Ok received_code.

Definition received_channel (user_id : string) (channel : value)
    (received_code : list value) : result (list value) :=
  messages ← Py.get channel "messages" (VList []);
  ms ← Py.iter messages;
  Py.for_each (Py.enumerate ms) (received_step user_id channel messages)
    received_code.

Definition get_user_received_code (slack_data : value) (user_id : string)
  : result (list value) :=
  channels ← Py.get slack_data "channels" (VList []);
  chs ← Py.iter channels;
  Py.for_each chs (received_channel user_id) [].

(** ** [get_user_meeting_transcripts_with_context] *)

(** [range(start, stop)] *)
Definition py_range (start stop : Z) : list Z := seqZ start (stop - start).

(** [sorted(s)] for a set of integers. *)
Definition py_sorted (s : gset Z) : list Z := merge_sort Z.le (elements s).

Definition included_step (user_id : string) (context_window : Z)
    (transcript : value) (il : nat * value) (included_indices : gset Z)
  : result (gset Z) :=
  let '(idx, line) := il in
  u ← Py.get line "user" VNone;
  if Py.eq_str u user_id
  then
    n ← Py.len transcript;
    let start := Z.max 0 (Z.of_nat idx - context_window) in
    let stop := Z.min n (Z.of_nat idx + context_window + 1) in
    Ok (foldl (λ s i, s ∪ {[ i ]}) included_indices (py_range start stop))
  else Ok included_indices.

Definition flow_step (transcript : value) (i : Z) (flow : list value)
  : result (list value) :=
  line ← Py.index transcript i;
  u ← Py.getitem line "user";
  line' ← Py.index transcript i;
  text ← Py.getitem line' "text";
  Ok (flow ++ [VDict {[ "user" := u; "text" := text ]}]).

Definition transcripts_step (user_id : string) (context_window : Z)
    (meeting : value) (results : list value) : result (list value) :=
  meeting_id ← Py.get meeting "meeting_id" VNone;
  transcript ← Py.get meeting "transcript" (VList []);
  lines ← Py.iter transcript;
  included_indices ←
    Py.for_each (Py.enumerate lines)
      (included_step user_id context_window transcript) ∅;
  if negb (bool_decide (included_indices = ∅))
  then
    flow ← Py.for_each (py_sorted included_indices) (flow_step transcript) [];
    Ok (results ++
        [VDict {[ "meeting_id" := meeting_id; "flow" := VList flow ]}])
  else Ok results.

Definition get_user_meeting_transcripts_with_context
    (transcripts_data : value) (user_id : string) (context_window : Z)
  : result (list value) :=
  meetings ← Py.iter transcripts_data;
  Py.for_each meetings (transcripts_step user_id context_window) [].

(** ** [extract_peer_kudos] *)

Definition kudos_ack_step (user_id : string) (channel : value)
    (code_snippet : value) (follow_up : value) (kudos : list value)
  : result (list value) :=
  u ← Py.getitem follow_up "user";
  if negb (Py.eq_str u user_id)
  then
    to_user ← Py.getitem follow_up "user";
    cid ← Py.getitem channel "channel_id";
    ack ← Py.getitem follow_up "text";
    Ok (kudos ++
        [VDict {[ "from_user" := VStr user_id; "to_user" := to_user;
                  "channel" := cid; "code_snippet" := code_snippet;
                  "ack_text" := ack; "type" := VStr "slack_ack" ]}])
  else Ok kudos.

Definition kudos_commit_step (user_id : string) (code_snippet : value)
    (commit : value) (kudos : list value) : result (list value) :=
  author ← Py.get commit "author" VNone;
  if negb (Py.eq_str author user_id)
  then
    diff ← Py.get commit "codediff" (VStr "");
    diff_sp ← Py.add_str diff " ";
    message ← Py.get commit "commit_message" (VStr "");
    commit_text ← Py.str_add diff_sp message;
    head ← Py.getslice code_snippet 0 30;
    hit ← Py.in_str head commit_text;
    if hit : bool
    then
      to_user ← Py.getitem commit "author";
      sha ← Py.getitem commit "sha";
      Ok (kudos ++
          [VDict {[ "from_user" := VStr user_id; "to_user" := to_user;
                    "channel" := VStr "github";
                    "code_snippet" := code_snippet;
                    "commit_sha" := sha; "type" := VStr "github_usage" ]}])
    else Ok kudos
  else Ok kudos.

Definition kudos_step (user_id : string) (context_window : Z)
    (github_data channel messages : value) (im : nat * value)
    (kudos : list value) : result (list value) :=
  let '(idx, msg) := im in
  u ← Py.get msg "user" VNone;
  if Py.eq_str u user_id
  then
    cc ← Py.get msg "contains_code" (VBool false);
    if Py.truthy cc
    then
      code_snippet ← Py.getitem msg "text";
      window ← Py.getslice messages (Z.of_nat idx + 1)
                  (Z.of_nat idx + 1 + context_window);
      follow_ups ← Py.iter window;
      kudos1 ← Py.for_each follow_ups
                  (kudos_ack_step user_id channel code_snippet) kudos;
      commits ← Py.get github_data "commits" (VList []);
      cs ← Py.iter commits;
      Py.for_each cs (kudos_commit_step user_id code_snippet) kudos1
    else Ok kudos
  else Ok kudos.

Definition kudos_channel (user_id : string) (context_window : Z)
    (github_data channel : value) (kudos : list value)
  : result (list value) :=
  messages ← Py.get channel "messages" (VList []);
  ms ← Py.iter messages;
  Py.for_each (Py.enumerate ms)
    (kudos_step user_id context_window github_data channel messages) kudos.

Definition extract_peer_kudos (slack_data github_data : value)
    (user_id : string) (context_window : Z) : result (list value) :=
  channels ← Py.get slack_data "channels" (VList []);
  chs ← Py.iter channels;
  Py.for_each chs (kudos_channel user_id context_window github_data) [].

(** ** Vocabulary of the statements *)

(** A loop body appends when running it on an accumulator amounts to
    running it on the empty one and appending what that gives. *)
Definition appends {A B} (body : A → list B → result (list B)) : Prop :=
  ∀ x acc, body x acc = ys ← body x []; Ok (acc ++ ys).

(** [v] is a dict that has every key of [ks]. *)
Definition has_keys (ks : list string) (v : value) : bool :=
  match v with
  | VDict d => forallb (λ k, bool_decide (is_Some (d !! k))) ks
  | _ => false
  end.

(** The value of [v.get(k)] when [v] is a dict, [None] otherwise. *)
Definition field (k : string) (v : value) : value :=
  match v with
  | VDict d => default VNone (d !! k)
  | _ => VNone
  end.

Definition authored_by (user_id : string) (v : value) : bool :=
  Py.eq_str (field "user" v) user_id.

Definition committed_by (user_id : string) (commit : value) : bool :=
  Py.eq_str (field "author" commit) user_id.

Definition is_dict (v : value) : bool :=
  match v with
  | VDict _ => true
  | _ => false
  end.

(** The eight keys [get_user_github_commits] reads from a commit, and the
    eight it writes. *)
Definition commit_keys_read : list string :=
  ["sha"; "date"; "commit_message"; "files_changed"; "lines_added";
   "lines_deleted"; "area"; "codediff"].

Definition commit_keys_kept : list string :=
  ["sha"; "date"; "files_changed"; "lines_added"; "lines_deleted"; "area";
   "codediff"].

(** A commit the personal extractor can process: a dict which, when the
    user is its author, has the keys that are read. *)
Definition commit_readable (user_id : string) (commit : value) : bool :=
  is_dict commit &&
  (negb (committed_by user_id commit) || has_keys commit_keys_read commit).

(** [out] is the personal view of [commit]: the seven kept keys with the
    commit's values, the commit message under the key [message], and
    nothing else. *)
Definition personal_view (commit out : value) : Prop :=
  ∃ d o, commit = VDict d ∧ out = VDict o ∧
    (∀ k, k ∈ commit_keys_kept → is_Some (d !! k) ∧ o !! k = d !! k) ∧
    is_Some (d !! "commit_message") ∧
    o !! "message" = d !! "commit_message" ∧
    dom o = list_to_set ("message" :: commit_keys_kept).

(** The elements of a value when it is a list. *)
Definition list_of (v : value) : list value :=
  match v with
  | VList l => l
  | _ => []
  end.

Definition channels_of (slack_data : value) : list value :=
  list_of (field "channels" slack_data).

Definition messages_of (channel : value) : list value :=
  list_of (field "messages" channel).

(** Every message of every channel, in scan order, with its channel and
    its index in the channel. *)
Definition positions (slack_data : value) : list (value * (nat * value)) :=
  ch ← channels_of slack_data;
  (λ im, (ch, im)) <$> Py.enumerate (messages_of ch).

(** The traversal [get_user_received_code] and [extract_peer_kudos] both
    make: every channel of the document, every message of the channel,
    with [step] as the body of the inner loop. *)
Definition scan_channel
    (step : value → value → nat * value → list value → result (list value))
    (channel : value) (acc : list value) : result (list value) :=
  messages ← Py.get channel "messages" (VList []);
  ms ← Py.iter messages;
  Py.for_each (Py.enumerate ms) (step channel messages) acc.

Definition scan_channels
    (step : value → value → nat * value → list value → result (list value))
    (slack_data : value) : result (list value) :=
  channels ← Py.get slack_data "channels" (VList []);
  chs ← Py.iter channels;
  Py.for_each chs (scan_channel step) [].

(** A document of the shape the extractors expect: a dict whose
    [channels], when present, is a list of dicts whose [messages], when
    present, is a list. *)
Definition absent_or_list (k : string) (v : value) : bool :=
  match v with
  | VDict d =>
      match d !! k with
      | None | Some (VList _) => true
      | Some _ => false
      end
  | _ => false
  end.

Definition slack_shaped (slack_data : value) : bool :=
  absent_or_list "channels" slack_data &&
  forallb (absent_or_list "messages") (channels_of slack_data).

(** The message's code flag, as a condition reads it. *)
Definition contains_code (msg : value) : bool :=
  Py.truthy (field "contains_code" msg).

(** A message that triggers the received-code scan for [user_id]. *)
Definition is_trigger (user_id : string) (msg : value) : Prop :=
  contains_code msg = true ∧ authored_by user_id msg = false.

(** [ack], at index [j], is the first message of [user_id] among the three
    that follow index [i] in [msgs]. *)
Definition first_ack (user_id : string) (msgs : list value) (i j : nat)
    (ack : value) : Prop :=
  (i < j ≤ i + 3)%nat ∧ msgs !! j = Some ack ∧
  authored_by user_id ack = true ∧
  ∀ k m, (i < k < j)%nat → msgs !! k = Some m → authored_by user_id m = false.

(** [fact] is the received-code record built from [channel], the
    triggering [msg] and the acknowledging [ack], every field read from
    the record that has it. *)
Definition received_fact (channel msg ack fact : value) : Prop :=
  ∃ cid from_user code text,
    Py.getitem channel "channel_id" = Ok cid ∧
    Py.getitem msg "user" = Ok from_user ∧
    Py.getitem msg "text" = Ok code ∧
    Py.getitem ack "text" = Ok text ∧
    fact = VDict {[ "channel" := cid; "from_user" := from_user;
                    "code_snippet" := code;
                    "acknowledged_by_user" := text ]}.

(** What the scan may emit at a message: nothing, or one record for a
    trigger and its first acknowledgment. *)
Definition received_at (user_id : string) (p : value * (nat * value))
    (o : option value) : Prop :=
  ∀ fact, o = Some fact →
    is_trigger user_id p.2.2 ∧
    ∃ j ack, first_ack user_id (messages_of p.1) p.2.1 j ack ∧
             received_fact p.1 p.2.2 ack fact.

(** *** Meetings *)

Definition lines_of (meeting : value) : list value :=
  list_of (field "transcript" meeting).

(** The user speaks at index [i] of the transcript. *)
Definition speaks_at (user_id : string) (lines : list value) (i : nat)
  : Prop :=
  ∃ line, lines !! i = Some line ∧ authored_by user_id line = true.

(** Index [j] is a valid index of the transcript within [radius] of a turn
    of the user: it lies in some [i - radius, i + radius], clamped. *)
Definition in_context (user_id : string) (radius : Z) (lines : list value)
    (j : Z) : Prop :=
  (0 ≤ j < Z.of_nat (length lines))%Z ∧
  ∃ i, speaks_at user_id lines i ∧
       (Z.of_nat i - radius ≤ j ≤ Z.of_nat i + radius)%Z.

(** [out] is the flow entry copied from the line at index [j]. *)
Definition flow_entry (lines : list value) (j : Z) (out : value) : Prop :=
  ∃ line speaker text,
    (0 ≤ j)%Z ∧ lines !! Z.to_nat j = Some line ∧
    Py.getitem line "user" = Ok speaker ∧
    Py.getitem line "text" = Ok text ∧
    out = VDict {[ "user" := speaker; "text" := text ]}.

(** What the extractor emits for a meeting: nothing when the user has no
    turn; otherwise one flow, over the indices in context, ascending and
    without repetition. *)
Definition context_flow_at (user_id : string) (radius : Z) (meeting : value)
    (o : option value) : Prop :=
  let lines := lines_of meeting in
  ((¬ ∃ i, speaks_at user_id lines i) ∧ o = None) ∨
  ((∃ i, speaks_at user_id lines i) ∧
   ∃ idxs outs,
     o = Some (VDict {[ "meeting_id" := field "meeting_id" meeting;
                        "flow" := VList outs ]}) ∧
     StronglySorted Z.lt idxs ∧ NoDup idxs ∧
     (∀ j, j ∈ idxs ↔ in_context user_id radius lines j) ∧
     Forall2 (flow_entry lines) idxs outs).

(** A meeting of the expected shape: a dict whose [transcript], when
    present, is a list of dicts that have a [user] and a [text]. *)
Definition meeting_shaped (meeting : value) : bool :=
  absent_or_list "transcript" meeting &&
  forallb (has_keys ["user"; "text"]) (lines_of meeting).

(** *** Kudos *)

Definition commits_of (github_data : value) : list value :=
  list_of (field "commits" github_data).

(** [needle] occurs in [hay] as a contiguous run of characters. *)
Definition occurs_in (needle hay : string) : Prop :=
  ∃ pre post, hay = pre +:+ needle +:+ post.

(** The value of [commit.get(k, "")]. *)
Definition text_or_empty (k : string) (commit : value) : value :=
  match commit with
  | VDict d => default (VStr "") (d !! k)
  | _ => VStr ""
  end.

(** [t] is the text a commit is searched in: its diff, one space, its
    message. *)
Definition commit_text (commit : value) (t : string) : Prop :=
  ∃ diff message,
    text_or_empty "codediff" commit = VStr diff ∧
    text_or_empty "commit_message" commit = VStr message ∧
    t = diff +:+ " " +:+ message.

(** The message is one the kudos scan starts from: authored by the user,
    code flag true. *)
Definition qualifies (user_id : string) (msg : value) : bool :=
  authored_by user_id msg && contains_code msg.

Definition ack_fact (user_id : string) (channel snippet follow_up fact : value)
  : Prop :=
  ∃ to_user cid text,
    Py.getitem follow_up "user" = Ok to_user ∧
    Py.getitem channel "channel_id" = Ok cid ∧
    Py.getitem follow_up "text" = Ok text ∧
    fact = VDict {[ "from_user" := VStr user_id; "to_user" := to_user;
                    "channel" := cid; "code_snippet" := snippet;
                    "ack_text" := text; "type" := VStr "slack_ack" ]}.

Definition usage_fact (user_id : string) (snippet commit fact : value)
  : Prop :=
  ∃ to_user sha,
    Py.getitem commit "author" = Ok to_user ∧
    Py.getitem commit "sha" = Ok sha ∧
    fact = VDict {[ "from_user" := VStr user_id; "to_user" := to_user;
                    "channel" := VStr "github"; "code_snippet" := snippet;
                    "commit_sha" := sha; "type" := VStr "github_usage" ]}.

(** What the acknowledgment pass appends at one follow-up. *)
Definition ack_at (user_id : string) (channel snippet follow_up : value)
    (facts : list value) : Prop :=
  ∃ author,
    Py.getitem follow_up "user" = Ok author ∧
    if Py.eq_str author user_id then facts = []
    else ∃ fact, ack_fact user_id channel snippet follow_up fact ∧
                 facts = [fact].

(** What the commit pass appends at one commit. *)
Definition usage_at (user_id : string) (snippet commit : value)
    (facts : list value) : Prop :=
  is_dict commit = true ∧
  if committed_by user_id commit then facts = []
  else
    ∃ s t, snippet = VStr s ∧ commit_text commit t ∧
      if Py.str_in (substring 0 30 s) t
      then ∃ fact, usage_fact user_id snippet commit fact ∧ facts = [fact]
      else facts = [].

(** What the kudos scan appends at one message of a channel: for a
    qualifying message the facts of the acknowledgment pass over the
    following slice, then those of the commit pass over all commits. *)
Definition kudos_at (user_id : string) (context_window : Z)
    (github_data : value) (p : value * (nat * value)) (facts : list value)
  : Prop :=
  if qualifies user_id p.2.2
  then
    ∃ snippet ack_lists usage_lists,
      Py.getitem p.2.2 "text" = Ok snippet ∧
      Forall2 (ack_at user_id p.1 snippet)
        (Py.slice (messages_of p.1) (Z.of_nat p.2.1 + 1)
                  (Z.of_nat p.2.1 + 1 + context_window))
        ack_lists ∧
      Forall2 (usage_at user_id snippet) (commits_of github_data)
        usage_lists ∧
      facts = mjoin ack_lists ++ mjoin usage_lists
  else facts = [].

(** Inputs of the shape the kudos scan expects.  A message has a [user]
    and a [text] that is a string; a channel has a [channel_id]; a commit
    has an [author] and a [sha], and its [codediff] and [commit_message]
    are strings when present. *)
Definition is_str (v : value) : bool :=
  match v with
  | VStr _ => true
  | _ => false
  end.

Definition absent_or_str (k : string) (v : value) : bool :=
  match v with
  | VDict d =>
      match d !! k with
      | None | Some (VStr _) => true
      | Some _ => false
      end
  | _ => false
  end.

Definition message_shaped (msg : value) : bool :=
  has_keys ["user"; "text"] msg && is_str (field "text" msg).

Definition channel_shaped (channel : value) : bool :=
  has_keys ["channel_id"] channel && absent_or_list "messages" channel &&
  forallb message_shaped (messages_of channel).

Definition slack_complete (slack_data : value) : bool :=
  absent_or_list "channels" slack_data &&
  forallb channel_shaped (channels_of slack_data).

Definition commit_shaped (commit : value) : bool :=
  has_keys ["author"; "sha"] commit &&
  absent_or_str "codediff" commit && absent_or_str "commit_message" commit.

Definition github_shaped (github_data : value) : bool :=
  absent_or_list "commits" github_data &&
  forallb commit_shaped (commits_of github_data).

(** The messages at the [w] positions after index [i], fewer at the end of
    the channel. *)
Definition window (w : Z) (i : nat) (msgs : list value) : list value :=
  take (Z.to_nat w) (drop (S i) msgs).

Definition others (user_id : string) (msgs : list value) : list value :=
  List.filter (λ m, negb (authored_by user_id m)) msgs.

Definition has_type (t : string) (fact : value) : Prop :=
  field "type" fact = VStr t.

(** C2 at one message: a qualifying message gets one acknowledgment fact
    for every message of the window that is not by the user, in order,
    followed by facts of the commit pass only. *)
Definition acks_at (user_id : string) (w : Z) (p : value * (nat * value))
    (facts : list value) : Prop :=
  qualifies user_id p.2.2 = true →
  ∃ snippet acks usages,
    Py.getitem p.2.2 "text" = Ok snippet ∧
    facts = acks ++ usages ∧
    Forall2 (ack_fact user_id p.1 snippet)
      (others user_id (window w p.2.1 (messages_of p.1))) acks ∧
    Forall (has_type "github_usage") usages.

(** The commits of the collection that are not by the user. *)
Definition foreign_commits (user_id : string) (github_data : value)
  : list value :=
  List.filter (λ c, negb (committed_by user_id c)) (commits_of github_data).

(** C8 at one message: a qualifying message with the empty text
    contributes, after its acknowledgments, one usage fact for every
    commit that is not by the user, in order. *)
Definition empty_usages_at (user_id : string) (github_data : value)
    (p : value * (nat * value)) (facts : list value) : Prop :=
  qualifies user_id p.2.2 = true →
  Py.getitem p.2.2 "text" = Ok (VStr "") →
  ∃ acks usages,
    facts = acks ++ usages ∧
    Forall (has_type "slack_ack") acks ∧
    Forall2 (usage_fact user_id (VStr "")) (foreign_commits user_id github_data)
      usages.







(** *** Records with a missing field *)



(** ** Vocabulary of the further properties *)

(** *** Personal messages and commits *)

(** The value of [msg.get("contains_code", False)]. *)
Definition flag_or_false (msg : value) : value :=
  match msg with
  | VDict d => default (VBool false) (d !! "contains_code")
  | _ => VBool false
  end.

(** [out] is the record [get_user_slack_messages] builds for [msg] of
    [channel]. *)
Definition message_record (channel msg out : value) : Prop :=
  ∃ cid ts text,
    Py.getitem channel "channel_id" = Ok cid ∧
    Py.getitem msg "ts" = Ok ts ∧
    Py.getitem msg "text" = Ok text ∧
    out = VDict {[ "channel" := cid; "timestamp" := ts; "text" := text;
                   "contains_code" := flag_or_false msg ]}.

(** What the personal message extractor emits at a message: its record
    when the user is the author, nothing otherwise. *)
Definition own_message_at (user_id : string) (p : value * (nat * value))
    (o : option value) : Prop :=
  if authored_by user_id p.2.2
  then ∃ out, message_record p.1 p.2.2 out ∧ o = Some out
  else o = None.

(** A message the personal message extractor gets through: a dict which,
    when the user is its author, has a [ts] and a [text] and sits in a
    channel with a [channel_id]. *)
Definition message_readable (user_id : string) (p : value * (nat * value))
  : bool :=
  is_dict p.2.2 &&
  (negb (authored_by user_id p.2.2) ||
   (has_keys ["ts"; "text"] p.2.2 && has_keys ["channel_id"] p.1)).

Definition slack_readable (user_id : string) (slack_data : value) : bool :=
  slack_shaped slack_data &&
  forallb (message_readable user_id) (positions slack_data).

(** *** Received code *)

(** The message at index [i] of [channel] is a trigger and one of the
    three messages after it is by the user. *)
Definition acknowledged (user_id : string) (channel : value) (i : nat)
    (msg : value) : Prop :=
  is_trigger user_id msg ∧
  ∃ j ack, first_ack user_id (messages_of channel) i j ack.

(** What the received-code scan emits at a message, exactly: the fact of
    the trigger and its first acknowledgment, or nothing when the message
    is no acknowledged trigger. *)
Definition received_exactly_at (user_id : string)
    (p : value * (nat * value)) (o : option value) : Prop :=
  match o with
  | Some fact =>
      is_trigger user_id p.2.2 ∧
      ∃ j ack, first_ack user_id (messages_of p.1) p.2.1 j ack ∧
               received_fact p.1 p.2.2 ack fact
  | None => ¬ acknowledged user_id p.1 p.2.1 p.2.2
  end.

(** The acknowledgment fact of the kudos scan that mirrors a
    received-code fact of [receiver] whose code came from [sharer]. *)
Definition mirrored_ack (sharer receiver : string) (fact : value) : value :=
  VDict {[ "from_user" := VStr sharer; "to_user" := VStr receiver;
           "channel" := field "channel" fact;
           "code_snippet" := field "code_snippet" fact;
           "ack_text" := field "acknowledged_by_user" fact;
           "type" := VStr "slack_ack" ]}.

(** *** Documents put together *)

(** The document [g] with [chs] as its channels. *)
Definition slack_doc (g : gmap string value) (chs : list value) : value :=
  VDict (<["channels" := VList chs]> g).

(** The document [g] with [cs] as its commits. *)
Definition github_doc (g : gmap string value) (cs : list value) : value :=
  VDict (<["commits" := VList cs]> g).

(** Run [r1], then [r2], and append what they return; the first
    exception wins. *)
Definition then_append {B} (r1 r2 : result (list B)) : result (list B) :=
  xs ← r1; ys ← r2; Ok (xs ++ ys).

(** A channel without messages: the key is absent or holds the empty
    list. *)
Definition channel_empty (channel : value) : bool :=
  absent_or_list "messages" channel &&
  bool_decide (messages_of channel = []).

(** *** More on meetings *)

(** A meeting the index collection gets through: a dict whose
    [transcript], when present, is a list of dicts. *)
Definition meeting_scannable (meeting : value) : bool :=
  absent_or_list "transcript" meeting && forallb is_dict (lines_of meeting).

(** What the extractor emits for a meeting in which the user speaks, when
    the radius reaches from every turn to both ends of the transcript: one
    flow with every line, in order. *)
Definition whole_flow_at (user_id : string) (radius : Z) (meeting : value)
    (o : option value) : Prop :=
  let lines := lines_of meeting in
  (∃ i, speaks_at user_id lines i) →
  (Z.of_nat (length lines) - 1 ≤ radius)%Z →
  ∃ outs,
    o = Some (VDict {[ "meeting_id" := field "meeting_id" meeting;
                       "flow" := VList outs ]}) ∧
    Forall2 (flow_entry lines) (seqZ 0 (Z.of_nat (length lines))) outs.

(** *** More on kudos *)

(** Where a fact of the kudos scan comes from: a follow-up by someone
    else in the slice after the shared message, or a commit of someone
    else. *)
Definition kudos_origin (user_id : string) (w : Z) (github_data : value)
    (p : value * (nat * value)) (snippet fact : value) : Prop :=
  (∃ follow_up,
     follow_up ∈ Py.slice (messages_of p.1) (Z.of_nat p.2.1 + 1)
                   (Z.of_nat p.2.1 + 1 + w) ∧
     authored_by user_id follow_up = false ∧
     ack_fact user_id p.1 snippet follow_up fact) ∨
  (∃ commit,
     commit ∈ commits_of github_data ∧
     committed_by user_id commit = false ∧
     usage_fact user_id snippet commit fact).

(** The acknowledgments of a qualifying message under a negative window
    [w]: none when the slice's upper bound [i + 1 + w] is still an index
    from the front, and otherwise those of the messages after the shared
    one that are not among the last [-(i + 1 + w)] of the channel, that
    is, of the first [length + w] messages after it. *)
Definition acks_from_end_at (user_id : string) (w : Z)
    (p : value * (nat * value)) (facts : list value) : Prop :=
  let msgs := messages_of p.1 in
  let i := p.2.1 in
  qualifies user_id p.2.2 = true →
  (w < 0)%Z →
  ∃ snippet acks usages,
    Py.getitem p.2.2 "text" = Ok snippet ∧
    facts = acks ++ usages ∧
    Forall (has_type "github_usage") usages ∧
    ((- (Z.of_nat i + 1) ≤ w)%Z → acks = []) ∧
    ((w < - (Z.of_nat i + 1))%Z →
     Forall2 (ack_fact user_id p.1 snippet)
       (others user_id
          (take (Z.to_nat (Z.of_nat (length msgs) + w)) (drop (S i) msgs)))
       acks).

Module Examples.

Definition commit_a1 : value :=
  VDict {[ "author" := VStr "A"; "sha" := VStr "a1";
           "date" := VStr "2024-01-01"; "commit_message" := VStr "fix";
           "files_changed" := VList [VStr "helper.py"];
           "lines_added" := VInt 3; "lines_deleted" := VInt 1;
           "area" := VStr "backend"; "codediff" := VStr "+ x = 1" ]}.

Definition commit_b1 : value :=
  VDict {[ "author" := VStr "B"; "sha" := VStr "b1" ]}.

(** The scenario of the specification: B shares code, A answers. *)
Definition slack_general : value :=
  VDict {[ "channels" := VList [
    VDict {[ "channel_id" := VStr "general";
             "messages" := VList [
               VDict {[ "user" := VStr "A"; "text" := VStr "hi" ]};
               VDict {[ "user" := VStr "B";
                        "text" := VStr "```for x in y```";
                        "contains_code" := VBool true ]};
               VDict {[ "user" := VStr "A";
                        "text" := VStr "nice, thanks" ]} ] ]} ] ]}.

Definition turn (speaker text : string) : value :=
  VDict {[ "user" := VStr speaker; "text" := VStr text ]}.

(** The scenario of the specification: five turns, A speaks at 2. *)
Definition meeting_five : value :=
  VDict {[ "meeting_id" := VStr "m1";
           "transcript" := VList [turn "B" "t0"; turn "C" "t1";
                                  turn "A" "t2"; turn "B" "t3";
                                  turn "C" "t4"] ]}.

Definition meeting_silent : value :=
  VDict {[ "meeting_id" := VStr "m2";
           "transcript" := VList [turn "B" "u0"; turn "C" "u1"] ]}.

(** A shares the snippet [a b]; B's commit has the diff [a] and the
    message [b]. *)
Definition msg_ab : value :=
  VDict {[ "user" := VStr "A"; "text" := VStr "a b";
           "contains_code" := VBool true ]}.

Definition channel_ab : value :=
  VDict {[ "channel_id" := VStr "dev"; "messages" := VList [msg_ab] ]}.

Definition slack_ab : value :=
  VDict {[ "channels" := VList [channel_ab] ]}.

Definition commit_ab : value :=
  VDict {[ "author" := VStr "B"; "sha" := VStr "s1";
           "codediff" := VStr "a"; "commit_message" := VStr "b" ]}.

Definition github_ab : value :=
  VDict {[ "commits" := VList [commit_ab] ]}.

Definition usage_ab : value :=
  VDict {[ "from_user" := VStr "A"; "to_user" := VStr "B";
           "channel" := VStr "github"; "code_snippet" := VStr "a b";
           "commit_sha" := VStr "s1"; "type" := VStr "github_usage" ]}.

(** A shares code, then B, A and C speak, and D after them. *)
Definition slack_acks : value :=
  VDict {[ "channels" := VList [
    VDict {[ "channel_id" := VStr "dev";
             "messages" := VList [
               VDict {[ "user" := VStr "A"; "text" := VStr "x = 1";
                        "contains_code" := VBool true ]};
               turn "B" "thanks"; turn "A" "welcome"; turn "C" "neat";
               turn "D" "late" ] ]} ] ]}.

(** The kudos scenario of the specification: A shares the snippet in a
    channel without follow-ups, and a commit of B has it in its diff. *)
Definition foo_snippet : string := "def foo(): return 1".

Definition foo_message : value :=
  VDict {[ "user" := VStr "A"; "text" := VStr foo_snippet;
           "contains_code" := VBool true ]}.

Definition foo_channel (cid : value) : value :=
  VDict {[ "channel_id" := cid; "messages" := VList [foo_message] ]}.

Definition foo_slack (cid : value) : value :=
  VDict {[ "channels" := VList [foo_channel cid] ]}.

Definition foo_commit (sha : value) (diff message : string) : value :=
  VDict {[ "author" := VStr "B"; "sha" := sha; "codediff" := VStr diff;
           "commit_message" := VStr message ]}.

Definition foo_github (sha : value) (diff message : string) : value :=
  VDict {[ "commits" := VList [foo_commit sha diff message] ]}.

Definition foo_usage (sha : value) : value :=
  VDict {[ "from_user" := VStr "A"; "to_user" := VStr "B";
           "channel" := VStr "github"; "code_snippet" := VStr foo_snippet;
           "commit_sha" := sha; "type" := VStr "github_usage" ]}.

(** A shares a code-flagged message with the empty text. *)
Definition slack_empty : value :=
  VDict {[ "channels" := VList [
    VDict {[ "channel_id" := VStr "dev";
             "messages" := VList [
               VDict {[ "user" := VStr "A"; "text" := VStr "";
                        "contains_code" := VBool true ]} ] ]} ] ]}.


Definition commit_xy : value :=
  VDict {[ "author" := VStr "C"; "sha" := VStr "c1";
           "codediff" := VStr "x"; "commit_message" := VStr "y" ]}.

Definition github_xy : value :=
  VDict {[ "commits" := VList [commit_b1; commit_xy] ]}.









(** Two channels: A writes in both, B in the first; one of A's messages
    has no code flag. *)
Definition note (speaker ts text : string) : value :=
  VDict {[ "user" := VStr speaker; "ts" := VStr ts; "text" := VStr text ]}.

Definition slack_notes : value :=
  VDict {[ "channels" := VList [
    VDict {[ "channel_id" := VStr "dev";
             "messages" := VList [
               note "A" "1" "hello"; VDict {[ "user" := VStr "B" ]};
               VDict {[ "user" := VStr "A"; "ts" := VStr "3";
                        "text" := VStr "x = 1";
                        "contains_code" := VBool true ]} ] ]};
    VDict {[ "channel_id" := VStr "ops";
             "messages" := VList [note "A" "4" "done"] ]} ] ]}.

(** A message of A without a timestamp. *)
Definition msg_no_ts : value :=
  VDict {[ "user" := VStr "A"; "text" := VStr "hello" ]}.

Definition channel_no_ts : value :=
  VDict {[ "channel_id" := VStr "dev"; "messages" := VList [msg_no_ts] ]}.

Definition slack_no_ts : value :=
  VDict {[ "channels" := VList [channel_no_ts] ]}.

(** A commit of A without a date. *)
Definition commit_no_date : value :=
  VDict {[ "author" := VStr "A"; "sha" := VStr "a2";
           "commit_message" := VStr "wip" ]}.

(** The fact of the received-code scenario. *)
Definition received_general : value :=
  VDict {[ "channel" := VStr "general"; "from_user" := VStr "B";
           "code_snippet" := VStr "```for x in y```";
           "acknowledged_by_user" := VStr "nice, thanks" ]}.

(** A meeting in which the line after A's turn has no [text]. *)
Definition line_no_text : value := VDict {[ "user" := VStr "B" ]}.

Definition meeting_gap : value :=
  VDict {[ "meeting_id" := VStr "m3";
           "transcript" := VList [turn "A" "hello"; line_no_text] ]}.

Definition github_a : value :=
  VDict {[ "commits" := VList [commit_b1; commit_a1] ]}.

End Examples.

(** * Properties *)

(** ** The exception monad and loops that append *)

Lemma bind_Ok_inv {A B} (m : result A) (k : A → result B) (b : B) :
  m ≫= k = Ok b → ∃ a, m = Ok a ∧ k a = Ok b.
Proof. destruct m as [a|e]; simpl; [eauto | discriminate]. Qed.

Section loops.
Context {A B : Type} (body : A → list B → result (list B)).
Hypothesis body_appends : appends body.

Lemma for_each_appends (l : list A) (acc : list B) :
  Py.for_each l body acc = ys ← Py.for_each l body []; Ok (acc ++ ys).
Proof.
  revert acc. induction l as [|x l IH]; intros acc; simpl.
  - by rewrite app_nil_r.
  - rewrite (body_appends x acc). destruct (body x []) as [ys|e]; simpl; [|done].
    rewrite (IH (acc ++ ys)), (IH ys).
    destruct (Py.for_each l body []) as [zs|e]; simpl; [|done].
    by rewrite app_assoc.
Qed.

Lemma for_each_cons (x : A) (l : list A) :
  Py.for_each (x :: l) body [] =
  ys ← body x []; zs ← Py.for_each l body []; Ok (ys ++ zs).
Proof.
  simpl. destruct (body x []) as [ys|e]; simpl; [|done].
  apply for_each_appends.
Qed.

(** The loop returns exactly when every iteration does, and then it
    returns what the iterations append, in order. *)
Lemma for_each_Ok (l : list A) (out : list B) :
  Py.for_each l body [] = Ok out ↔
  ∃ yss, Forall2 (λ x ys, body x [] = Ok ys) l yss ∧ out = mjoin yss.
Proof.
  revert out. induction l as [|x l IH]; intros out.
  - simpl. split.
    + intros [= <-]. exists []. by split; [constructor|].
    + intros (yss & Hall & ->). by inversion Hall.
  - rewrite for_each_cons. split.
    + intros H. apply bind_Ok_inv in H as (ys & Hx & H).
      apply bind_Ok_inv in H as (zs & Hl & [= <-]).
      apply IH in Hl as (yss & Hall & ->).
      exists (ys :: yss). by split; [constructor|].
    + intros (yss & Hall & ->). inversion Hall as [|? ys ? yss' Hx Hall']; subst.
      rewrite Hx. simpl.
      assert (Py.for_each l body [] = Ok (mjoin yss')) as ->
        by (apply IH; eauto).
      done.
Qed.

End loops.

Ltac in_list := apply list_elem_of_In; simpl; tauto.

Ltac step_cases :=
  repeat first
    [ done
    | rewrite app_nil_r
    | match goal with
      | |- mbind _ ?m = _ => destruct m; simpl
      | |- (if ?b then _ else _) = _ => destruct b; simpl
      end ].

(** ** [get_user_github_commits] *)

Lemma github_commits_step_appends u : appends (github_commits_step u).
Proof. intros c acc. unfold github_commits_step. step_cases. Qed.

Lemma has_keys_lookup ks d k :
  has_keys ks (VDict d) = true → k ∈ ks → is_Some (d !! k).
Proof.
  simpl. rewrite forallb_forall. intros H Hk.
  apply list_elem_of_In, H in Hk. by apply bool_decide_eq_true in Hk.
Qed.

Lemma getitem_Some d k x : d !! k = Some x → Py.getitem (VDict d) k = Ok x.
Proof. simpl. by intros ->. Qed.

Lemma getitem_Ok_inv v k x :
  Py.getitem v k = Ok x → ∃ d, v = VDict d ∧ d !! k = Some x.
Proof.
  destruct v as [| | | | |d]; simpl; try discriminate.
  destruct (d !! k) eqn:E; [|discriminate]. intros [= <-]. eauto.
Qed.

Lemma get_Ok_inv v k dflt x :
  Py.get v k dflt = Ok x → ∃ d, v = VDict d ∧ x = default dflt (d !! k).
Proof. destruct v; simpl; try discriminate. intros [= <-]. eauto. Qed.

Lemma commit_view_Ok d :
  has_keys commit_keys_read (VDict d) = true →
  ∃ out, commit_view (VDict d) = Ok out ∧ personal_view (VDict d) out.
Proof.
  intros H.
  assert (∀ k, k ∈ commit_keys_read → ∃ x, d !! k = Some x) as Hk
    by (intros k Hk; exact (has_keys_lookup _ _ _ H Hk)).
  destruct (Hk "sha") as [sha Hsha]; [in_list|].
  destruct (Hk "date") as [date Hdate]; [in_list|].
  destruct (Hk "commit_message") as [msg Hmsg]; [in_list|].
  destruct (Hk "files_changed") as [fc Hfc]; [in_list|].
  destruct (Hk "lines_added") as [la Hla]; [in_list|].
  destruct (Hk "lines_deleted") as [ld Hld]; [in_list|].
  destruct (Hk "area") as [area Harea]; [in_list|].
  destruct (Hk "codediff") as [diff Hdiff]; [in_list|].
  unfold commit_view.
  rewrite (getitem_Some _ _ _ Hsha), (getitem_Some _ _ _ Hdate),
    (getitem_Some _ _ _ Hmsg), (getitem_Some _ _ _ Hfc),
    (getitem_Some _ _ _ Hla), (getitem_Some _ _ _ Hld),
    (getitem_Some _ _ _ Harea), (getitem_Some _ _ _ Hdiff).
  simpl. eexists. split; [reflexivity|].
  eexists d, _. split; [done|]. split; [done|].
  split; [|split; [eauto|split]].
  - intros k Hin. unfold commit_keys_kept in Hin.
    repeat (apply elem_of_cons in Hin as [->|Hin]);
      [by simplify_map_eq; eauto ..|].
    by apply elem_of_nil in Hin.
  - by simplify_map_eq.
  - rewrite !dom_insert_L, dom_singleton_L. simpl. set_solver.
Qed.

Lemma github_commits_loop u cs :
  forallb (commit_readable u) cs = true →
  ∃ out, Py.for_each cs (github_commits_step u) [] = Ok out ∧
         Forall2 personal_view (List.filter (committed_by u) cs) out.
Proof.
  induction cs as [|c cs IH].
  - intros _. exists []. by split; [|constructor].
  - intros [Hc Hcs]%andb_prop. destruct (IH Hcs) as (out & Hout & Hall).
    rewrite (for_each_cons _ (github_commits_step_appends u)), Hout.
    apply andb_prop in Hc as [Hd Hc]. destruct c as [| | | | |d]; try done.
    unfold github_commits_step. cbn [List.filter Py.get mbind result_bind].
    change (default VNone (d !! "author")) with (field "author" (VDict d)).
    fold (committed_by u (VDict d)).
    destruct (committed_by u (VDict d)); simpl in Hc.
    + destruct (commit_view_Ok d Hc) as (o & -> & Ho).
      cbn [mbind result_bind app]. eexists. split; [done|]. by constructor.
    + cbn [mbind result_bind app]. eauto.
Qed.

(** C5, as the code has it: for a commit collection in which every commit
    of the user has the eight fields that are read, the personal commit
    extractor returns, in source order, one record per commit of the user;
    the record has seven of the commit's fields under their own names and
    with their values, the commit message under the new name [message],
    and neither the author nor any other field of the commit. *)
Theorem C5_personal_commits_projected (g : gmap string value)
    (cs : list value) (user_id : string) :
  g !! "commits" = Some (VList cs) →
  forallb (commit_readable user_id) cs = true →
  ∃ out, get_user_github_commits (VDict g) user_id = Ok out ∧
         Forall2 personal_view (List.filter (committed_by user_id) cs) out.
Proof.
  intros Hg Hcs. unfold get_user_github_commits. simpl. rewrite Hg. simpl.
  by apply github_commits_loop.
Qed.

Lemma C5_personal_commits_projected_witness :
  ∃ out, get_user_github_commits Examples.github_a "A" = Ok out ∧
         Forall2 personal_view
           (List.filter (committed_by "A")
              [Examples.commit_b1; Examples.commit_a1]) out.
Proof.
  apply (C5_personal_commits_projected _ [Examples.commit_b1; Examples.commit_a1]).
  - reflexivity.
  - reflexivity.
Defined.

(** C5 as stated fails: the record returned for a commit of the user is
    not the commit; it has no [author] and no [commit_message] key. *)
Lemma C5_counterexample :
  ∃ out,
    get_user_github_commits Examples.github_a "A" = Ok [out] ∧
    List.filter (committed_by "A") [Examples.commit_b1; Examples.commit_a1]
      = [Examples.commit_a1] ∧
    field "message" out = VStr "fix" ∧
    has_keys ["commit_message"] out = false ∧
    has_keys ["author"] out = false ∧
    has_keys ["commit_message"; "author"] Examples.commit_a1 = true ∧
    out ≠ Examples.commit_a1.
Proof.
  eexists. split; [vm_compute; reflexivity|].
  repeat split.
  intros H. apply (f_equal (has_keys ["author"])) in H. vm_compute in H.
  discriminate.
Qed.

(** ** Iteration over a document *)

Lemma iter_dicts v l :
  Py.iter v = Ok l → Forall (λ x, is_dict x = true) l → l = list_of v.
Proof.
  destruct v as [| | |s|l'|d]; simpl; try discriminate; intros [= <-].
  - destruct s as [|c s]; [done|]. unfold Py.chars. simpl.
    by intros [? _]%Forall_cons.
  - done.
  - destruct (map_to_list d) as [|[k x] kxs]; [done|]. simpl.
    by intros [? _]%Forall_cons.
Qed.

Lemma enumerate_dicts (l : list value) :
  Forall (λ im : nat * value, is_dict im.2 = true) (Py.enumerate l) →
  Forall (λ x, is_dict x = true) l.
Proof.
  unfold Py.enumerate. rewrite !Forall_lookup. intros H i x Hi.
  apply (H i (i, x)). by rewrite list_lookup_imap, Hi.
Qed.

Lemma for_each_Forall {A B} (body : A → list B → result (list B))
    (P : A → Prop) (l : list A) (out : list B) :
  appends body →
  (∀ x ys, body x [] = Ok ys → P x) →
  Py.for_each l body [] = Ok out → Forall P l.
Proof.
  intros Happ HP H. apply (for_each_Ok _ Happ) in H as (yss & Hall & _).
  induction Hall; constructor; eauto.
Qed.

Lemma absent_or_list_get k v :
  absent_or_list k v = true →
  Py.get v k (VList []) = Ok (VList (list_of (field k v))).
Proof.
  destruct v as [| | | | |d]; try done. simpl.
  by destruct (d !! k) as [[]|].
Qed.

Section scan.
Context
  (step : value → value → nat * value → list value → result (list value)).
Hypothesis step_appends : ∀ ch ms, appends (step ch ms).
Hypothesis step_dict :
  ∀ ch ms im ys, step ch ms im [] = Ok ys → is_dict im.2 = true.

Lemma scan_channel_appends : appends (scan_channel step).
Proof.
  intros ch acc. unfold scan_channel.
  destruct (Py.get ch "messages" (VList [])) as [messages|]; [|done].
  cbn [mbind result_bind].
  destruct (Py.iter messages) as [ms|]; [|done]. cbn [mbind result_bind].
  apply for_each_appends, step_appends.
Qed.

Lemma scan_channel_dict ch ys :
  scan_channel step ch [] = Ok ys → is_dict ch = true.
Proof.
  unfold scan_channel. intros (? & (? & -> & _)%get_Ok_inv & _)%bind_Ok_inv.
  done.
Qed.

(** What a returning scan of one channel appends: what [step] appends
    at each message, in order. *)
Lemma scan_channel_Ok_inv ch out :
  scan_channel step ch [] = Ok out →
  ∃ yss,
    Forall2 (λ im ys, step ch (VList (messages_of ch)) im [] = Ok ys)
      (Py.enumerate (messages_of ch)) yss ∧
    out = mjoin yss.
Proof.
  unfold scan_channel.
  intros (messages & (d & -> & ->)%get_Ok_inv & H)%bind_Ok_inv.
  apply bind_Ok_inv in H as (ms & Hiter & H).
  assert (ms = list_of (default (VList []) (d !! "messages"))) as Hms.
  { apply iter_dicts; [done|]. apply enumerate_dicts.
    eapply for_each_Forall; [apply step_appends| |exact H].
    intros im ys. apply step_dict. }
  unfold messages_of, field.
  destruct (d !! "messages") as [messages|] eqn:E; simpl in *.
  - destruct messages as [| | | |l|]; simpl in *; subst ms;
      try (apply (for_each_Ok _ (step_appends _ _)) in H as (yss & Hall & ->);
           inversion Hall; subst; exists []; split; [constructor|done]).
    by apply (for_each_Ok _ (step_appends _ _)) in H.
  - subst ms. by apply (for_each_Ok _ (step_appends _ _)) in H.
Qed.

Lemma scan_channel_Ok ch yss :
  absent_or_list "messages" ch = true →
  Forall2 (λ im ys, step ch (VList (messages_of ch)) im [] = Ok ys)
    (Py.enumerate (messages_of ch)) yss →
  scan_channel step ch [] = Ok (mjoin yss).
Proof.
  intros Hch Hall. unfold scan_channel.
  rewrite (absent_or_list_get _ _ Hch). cbn [mbind result_bind Py.iter].
  apply (for_each_Ok _ (step_appends _ _)). eauto.
Qed.

(** The same for the whole document, message by message. *)
Lemma scan_channels_Ok_inv slack out :
  scan_channels step slack = Ok out →
  ∃ yss,
    Forall2 (λ p ys, step p.1 (VList (messages_of p.1)) p.2 [] = Ok ys)
      (positions slack) yss ∧
    out = mjoin yss.
Proof.
  unfold scan_channels.
  intros (channels & (d & -> & ->)%get_Ok_inv & H)%bind_Ok_inv.
  apply bind_Ok_inv in H as (chs & Hiter & H).
  assert (chs = channels_of (VDict d)) as ->.
  { unfold channels_of, field.
    destruct (d !! "channels") as [channels|] eqn:E; simpl in *.
    - apply iter_dicts; [done|].
      eapply for_each_Forall; [apply scan_channel_appends| |exact H].
      intros ch ys. apply scan_channel_dict.
    - by injection Hiter as <-. }
  apply (for_each_Ok _ scan_channel_appends) in H as (zss & Hall & ->).
  unfold positions. generalize dependent (channels_of (VDict d)).
  intros chs Hall _. induction Hall as [|ch zs chs zss Hch Hall IH].
  - exists []. by split; [constructor|].
  - destruct IH as (yss & Hyss & Heq).
    apply scan_channel_Ok_inv in Hch as (yss0 & Hyss0 & ->).
    exists (yss0 ++ yss). split.
    + cbn [mbind list_bind]. apply Forall2_app; [|done].
      apply Forall2_fmap_l. eapply Forall2_impl; [exact Hyss0|]. done.
    + rewrite join_app, <- Heq. done.
Qed.

Lemma scan_channels_Ok slack yss :
  slack_shaped slack = true →
  Forall2 (λ p ys, step p.1 (VList (messages_of p.1)) p.2 [] = Ok ys)
    (positions slack) yss →
  scan_channels step slack = Ok (mjoin yss).
Proof.
  intros [Hs Hchs]%andb_prop. unfold scan_channels.
  rewrite (absent_or_list_get _ _ Hs). cbn [mbind result_bind Py.iter].
  fold (channels_of slack). unfold positions.
  generalize dependent (channels_of slack). intros chs Hchs. revert yss.
  induction chs as [|ch chs IH]; intros yss Hall.
  - inversion Hall. done.
  - simpl in Hchs. apply andb_prop in Hchs as [Hch Hchs].
    cbn [mbind list_bind] in Hall.
    apply Forall2_app_inv_l in Hall as (yss1 & yss2 & H1 & H2 & ->).
    apply Forall2_fmap_l in H1.
    rewrite (for_each_cons _ scan_channel_appends).
    rewrite (scan_channel_Ok ch yss1 Hch); [|done].
    cbn [mbind result_bind]. rewrite (IH Hchs yss2 H2).
    cbn [mbind result_bind]. by rewrite join_app.
Qed.

Lemma scan_channels_raises slack p :
  p ∈ positions slack →
  raises (step p.1 (VList (messages_of p.1)) p.2 []) →
  raises (scan_channels step slack).
Proof.
  intros Hin Hp. destruct (scan_channels step slack) as [out|e] eqn:E; [|done].
  apply scan_channels_Ok_inv in E as (yss & Hall & _).
  apply list_elem_of_lookup in Hin as [i Hi].
  destruct (Forall2_lookup_l _ _ _ _ _ Hall Hi) as (ys & _ & Hys).
  by rewrite Hys in Hp.
Qed.

End scan.

(** ** Slices *)

Lemma slice_window {A} (l : list A) (i : nat) (w : Z) :
  (0 ≤ w)%Z →
  Py.slice l (Z.of_nat i + 1) (Z.of_nat i + 1 + w) =
  take (Z.to_nat w) (drop (S i) l).
Proof.
  intros Hw. unfold Py.slice, Py.clamp. cbv zeta.
  destruct (Z.ltb_spec (Z.of_nat i + 1) 0) as [?|_]; [lia|].
  destruct (Z.ltb_spec (Z.of_nat i + 1 + w) 0) as [?|_]; [lia|].
  destruct (decide (S i ≤ length l)%nat) as [Hle|Hgt].
  - assert (Z.to_nat (Z.min (Z.of_nat i + 1) (Z.of_nat (length l))) = S i)
      as -> by lia.
    apply list_eq. intros k. rewrite !lookup_take, !lookup_drop.
    repeat case_decide; try done; try lia.
    symmetry. apply lookup_ge_None. lia.
  - rewrite (drop_ge l (S i)) by lia. rewrite drop_ge by lia.
    by rewrite !take_nil.
Qed.

Lemma str_slice_head (s : string) (n : nat) :
  Py.str_slice s 0 (Z.of_nat n) = substring 0 n s.
Proof.
  unfold Py.str_slice, Py.slice, Py.clamp. cbv zeta.
  destruct (Z.ltb_spec (Z.of_nat n) 0) as [?|_]; [lia|]. simpl.
  set (l := list_ascii_of_string s).
  assert (Z.to_nat (Z.min 0 (Z.of_nat (length l))) = 0%nat) as -> by lia.
  assert (Z.to_nat (Z.min (Z.of_nat n) (Z.of_nat (length l)) -
                    Z.min 0 (Z.of_nat (length l))) =
          (n `min` length l)%nat) as -> by lia.
  rewrite drop_0, <- take_take, firstn_all. subst l.
  revert n. induction s as [|c s IH]; intros [|n]; simpl; try done.
  by rewrite IH.
Qed.

(** ** [get_user_received_code] *)

Lemma received_scan_appends u ch msg fus acc :
  received_scan u ch msg fus acc =
  ys ← received_scan u ch msg fus []; Ok (acc ++ ys).
Proof.
  induction fus as [|fu fus IH]; simpl.
  - by rewrite app_nil_r.
  - destruct (Py.get fu "user" VNone) as [x|]; [|done]. simpl.
    destruct (Py.eq_str x u); [|done]. step_cases.
Qed.

Lemma received_step_appends u ch ms : appends (received_step u ch ms).
Proof.
  intros [i msg] acc. unfold received_step. step_cases.
  apply received_scan_appends.
Qed.

Lemma received_step_dict u ch ms im ys :
  received_step u ch ms im [] = Ok ys → is_dict im.2 = true.
Proof.
  destruct im as [i msg]. unfold received_step.
  intros (? & (? & -> & _)%get_Ok_inv & _)%bind_Ok_inv. done.
Qed.

Lemma get_user_received_code_scan slack u :
  get_user_received_code slack u = scan_channels (received_step u) slack.
Proof. reflexivity. Qed.

Lemma get_user_field v k x :
  Py.get v k VNone = Ok x → x = field k v.
Proof. by intros (d & -> & ->)%get_Ok_inv. Qed.

(** The inner loop, when it returns: either no follow-up is by the user
    and nothing is appended, or the record of the first one is. *)
Lemma received_scan_Ok_inv u ch msg fus ys :
  received_scan u ch msg fus [] = Ok ys →
  (ys = [] ∧ Forall (λ m, authored_by u m = false) fus) ∨
  (∃ k ack fact,
     fus !! k = Some ack ∧ authored_by u ack = true ∧
     (∀ k' m, (k' < k)%nat → fus !! k' = Some m → authored_by u m = false) ∧
     received_fact ch msg ack fact ∧ ys = [fact]).
Proof.
  revert ys. induction fus as [|fu fus IH]; intros ys; simpl.
  - intros [= <-]. left. by split; [|constructor].
  - intros (x & Hx & H)%bind_Ok_inv. apply get_user_field in Hx as ->.
    fold (authored_by u fu) in H.
    destruct (authored_by u fu) eqn:Hfu.
    + right. apply bind_Ok_inv in H as (cid & Hcid & H).
      apply bind_Ok_inv in H as (from & Hfrom & H).
      apply bind_Ok_inv in H as (code & Hcode & H).
      apply bind_Ok_inv in H as (text & Htext & [= <-]).
      eexists 0%nat, fu, _. repeat split; [done|intros; lia|].
      by exists cid, from, code, text.
    + apply IH in H as [[-> Hall]|(k & ack & fact & Hk & Hack & Hfirst & Hfact & ->)].
      * left. by split; [|constructor].
      * right. exists (S k), ack, fact. repeat split; try done.
        intros [|k'] m Hlt; simpl; [by intros [= <-]|].
        apply Hfirst. lia.
Qed.

Lemma received_step_Ok_inv u ch i msg ys :
  received_step u ch (VList (messages_of ch)) (i, msg) [] = Ok ys →
  ∃ o, ys = option_list o ∧ received_at u (ch, (i, msg)) o.
Proof.
  unfold received_step.
  intros (cc & ->%get_user_field & H)%bind_Ok_inv.
  fold (contains_code msg) in H.
  destruct (contains_code msg) eqn:Hcc; [|injection H as <-; by exists None].
  apply bind_Ok_inv in H as (x & ->%get_user_field & H).
  fold (authored_by u msg) in H.
  destruct (authored_by u msg) eqn:Hmsg; [injection H as <-; by exists None|].
  cbn [negb Py.getslice mbind result_bind Py.iter] in H.
  replace (Z.of_nat i + 4)%Z with (Z.of_nat i + 1 + 3)%Z in H by lia.
  rewrite (slice_window _ i 3) in H by lia.
  apply received_scan_Ok_inv in H
    as [[-> _]|(k & ack & fact & Hk & Hack & Hfirst & Hfact & ->)];
    [by exists None|].
  exists (Some fact). split; [done|]. intros ? [= <-]. split; [done|].
  apply lookup_take_Some in Hk as [Hk Hlt]. rewrite lookup_drop in Hk.
  exists (S i + k)%nat, ack. split; [|done].
  change (Z.to_nat 3) with 3%nat in *. cbn [fst snd].
  repeat split; [lia|lia|done|done|].
  intros k' m [Hlo Hhi] Hm. apply (Hfirst (k' - S i)%nat m); [lia|].
  rewrite lookup_take_lt by lia. rewrite lookup_drop.
  by replace (S i + (k' - S i))%nat with k' by lia.
Qed.

Lemma option_lists {P : Type} (Q : P → option value → Prop) ps yss :
  Forall2 (λ p ys, ∃ o, ys = option_list o ∧ Q p o) ps yss →
  ∃ os, mjoin yss = omap id os ∧ Forall2 Q ps os.
Proof.
  induction 1 as [|p ys ps yss (o & -> & Hq) _ (os & Heq & Hall)].
  - exists []. by split; [|constructor].
  - exists (o :: os). split; [|by constructor].
    destruct o; simpl; by rewrite Heq.
Qed.

(** C3: when the received-code scan returns, its records are, in scan
    order, those of an assignment of at most one record to every message
    of every channel, and a message that gets a record is a trigger (code
    flag true, not authored by the user) whose record is built from it
    and from the first message of the user among the three that follow it
    in its channel. *)
Theorem C3_received_code_first_ack (slack_data : value) (user_id : string)
    (facts : list value) :
  get_user_received_code slack_data user_id = Ok facts →
  ∃ emitted : list (option value),
    facts = omap id emitted ∧
    Forall2 (received_at user_id) (positions slack_data) emitted.
Proof.
  rewrite get_user_received_code_scan. intros H.
  apply scan_channels_Ok_inv in H as (yss & Hall & ->);
    [|apply received_step_appends|apply received_step_dict].
  apply option_lists. eapply Forall2_impl; [exact Hall|].
  intros [ch [i msg]] ys. apply received_step_Ok_inv.
Qed.

Lemma C3_received_code_first_ack_witness :
  ∃ emitted : list (option value),
    [VDict {[ "channel" := VStr "general"; "from_user" := VStr "B";
              "code_snippet" := VStr "```for x in y```";
              "acknowledged_by_user" := VStr "nice, thanks" ]}]
      = omap id emitted ∧
    Forall2 (received_at "A") (positions Examples.slack_general) emitted.
Proof.
  apply (C3_received_code_first_ack Examples.slack_general "A").
  vm_compute. reflexivity.
Defined.

(** ** [get_user_meeting_transcripts_with_context] *)

Lemma elem_of_add_range (s : gset Z) (l : list Z) (j : Z) :
  j ∈ foldl (λ s i, s ∪ {[ i ]}) s l ↔ j ∈ s ∨ j ∈ l.
Proof.
  revert s. induction l as [|i l IH]; intros s; simpl.
  - set_solver.
  - rewrite IH. set_solver.
Qed.

Lemma elem_of_py_range (start stop j : Z) :
  j ∈ py_range start stop ↔ (start ≤ j < stop)%Z.
Proof. unfold py_range. rewrite elem_of_seqZ. lia. Qed.

Lemma has_keys_dict ks v : has_keys ks v = true → ∃ d, v = VDict d.
Proof. destruct v; try done. eauto. Qed.

Lemma included_step_dict u r (transcript : value) (n : Z) (k : nat)
    (d : gmap string value) (s0 : gset Z) :
  Py.len transcript = Ok n →
  included_step u r transcript (k, VDict d) s0 =
  Ok (if authored_by u (VDict d)
      then foldl (λ s i, s ∪ {[ i ]}) s0
             (py_range (Z.max 0 (Z.of_nat k - r))
                       (Z.min n (Z.of_nat k + r + 1)))
      else s0).
Proof.
  intros Hn. unfold included_step. cbn [Py.get mbind result_bind].
  change (default VNone (d !! "user")) with (field "user" (VDict d)).
  fold (authored_by u (VDict d)). rewrite Hn.
  by destruct (authored_by u (VDict d)).
Qed.

(** The loop that collects the indices, started at offset [k] of the
    transcript with the set [s0]. *)
Lemma included_loop u r (transcript : value) (n : Z) (lines : list value)
    (k : nat) (s0 : gset Z) :
  Py.len transcript = Ok n →
  forallb is_dict lines = true →
  ∃ s,
    Py.for_each (imap (λ i x, ((k + i)%nat, x)) lines)
      (included_step u r transcript) s0 = Ok s ∧
    ∀ j, j ∈ s ↔
      j ∈ s0 ∨
      ((0 ≤ j < n)%Z ∧
       ∃ i, speaks_at u lines i ∧
            (Z.of_nat (k + i) - r ≤ j ≤ Z.of_nat (k + i) + r)%Z).
Proof.
  intros Hn. revert k s0. induction lines as [|line lines IH]; intros k s0 Hd.
  - exists s0. split; [done|]. intros j. split; [tauto|].
    intros [?|(_ & i & (? & Hi & _) & _)]; [done|]. by destruct i.
  - simpl in Hd. apply andb_prop in Hd as [Hline Hd].
    destruct line as [| | | | |d]; try done.
    cbn [imap Py.for_each].
    rewrite (included_step_dict _ _ _ n) by done. cbn [mbind result_bind].
    set (s1 := if authored_by u (VDict d)
               then foldl (λ s i, s ∪ {[ i ]}) s0
                      (py_range (Z.max 0 (Z.of_nat (k + 0) - r))
                                (Z.min n (Z.of_nat (k + 0) + r + 1)))
               else s0).
    destruct (IH (S k) s1 Hd) as (s & Hs & Hin).
    exists s. split.
    + rewrite <- Hs. f_equal. apply imap_ext. intros i x _. simpl.
      f_equal. lia.
    + intros j. rewrite Hin. subst s1. split.
      * intros [Hj|(Hj & i & (l & Hi & Hl) & Hr)].
        -- destruct (authored_by u (VDict d)) eqn:Ha; [|by left].
           apply elem_of_add_range in Hj as [?|Hj]; [by left|].
           apply elem_of_py_range in Hj. right. split; [lia|].
           exists 0%nat. split; [by exists (VDict d)|lia].
        -- right. split; [done|]. exists (S i). split; [by exists l|lia].
      * intros [Hj|(Hj & [|i] & (l & Hi & Hl) & Hr)].
        -- left. destruct (authored_by u (VDict d)); [|done].
           apply elem_of_add_range. by left.
        -- left. simpl in Hi. injection Hi as <-. rewrite Hl.
           apply elem_of_add_range. right. apply elem_of_py_range. lia.
        -- right. split; [done|]. exists i. split; [by exists l|lia].
Qed.

Lemma included_indices_Ok u r (lines : list value) :
  forallb is_dict lines = true →
  ∃ s,
    Py.for_each (Py.enumerate lines) (included_step u r (VList lines)) ∅
      = Ok s ∧
    ∀ j, j ∈ s ↔ in_context u r lines j.
Proof.
  intros Hd.
  destruct (included_loop u r (VList lines) _ lines 0 ∅ eq_refl Hd)
    as (s & Hs & Hin).
  exists s. split; [exact Hs|]. intros j. rewrite Hin. unfold in_context.
  split; [intros [?|?]; [set_solver|done]|by right].
Qed.

Lemma py_sorted_elem (s : gset Z) (j : Z) : j ∈ py_sorted s ↔ j ∈ s.
Proof.
  unfold py_sorted. rewrite merge_sort_Permutation. apply elem_of_elements.
Qed.

Lemma py_sorted_NoDup (s : gset Z) : NoDup (py_sorted s).
Proof.
  unfold py_sorted. rewrite merge_sort_Permutation. apply NoDup_elements.
Qed.

Lemma sorted_le_lt (l : list Z) :
  StronglySorted Z.le l → NoDup l → StronglySorted Z.lt l.
Proof.
  induction 1 as [|x l Hl IH Hx]; intros Hnd; [constructor|].
  apply NoDup_cons in Hnd as [Hnin Hnd]. constructor; [by apply IH|].
  rewrite Forall_forall in Hx |- *. intros y Hy.
  assert (x ≠ y) by (intros ->; by apply Hnin).
  specialize (Hx y Hy). lia.
Qed.

Lemma py_sorted_ascending (s : gset Z) : StronglySorted Z.lt (py_sorted s).
Proof.
  apply sorted_le_lt; [|apply py_sorted_NoDup].
  unfold py_sorted. apply StronglySorted_merge_sort; apply _.
Qed.

Lemma flow_step_appends transcript : appends (flow_step transcript).
Proof. intros i acc. unfold flow_step. step_cases. Qed.

Lemma index_list (lines : list value) (j : Z) (line : value) :
  (0 ≤ j)%Z → lines !! Z.to_nat j = Some line →
  Py.index (VList lines) j = Ok line.
Proof.
  intros Hj Hl. pose proof (lookup_lt_Some _ _ _ Hl). unfold Py.index.
  destruct (Z.ltb_spec j 0) as [?|_]; [lia|].
  destruct (Z.leb_spec 0 j) as [_|?]; [|lia].
  destruct (Z.ltb_spec j (Z.of_nat (length lines))) as [_|?]; [|lia].
  simpl. by rewrite Hl.
Qed.

Lemma flow_loop (lines : list value) (idxs : list Z) :
  forallb (has_keys ["user"; "text"]) lines = true →
  Forall (λ j, (0 ≤ j < Z.of_nat (length lines))%Z) idxs →
  ∃ outs,
    Py.for_each idxs (flow_step (VList lines)) [] = Ok outs ∧
    Forall2 (flow_entry lines) idxs outs.
Proof.
  intros Hk. induction 1 as [|j idxs Hj _ (outs & Houts & Hall)].
  - exists []. by split; [|constructor].
  - destruct (lookup_lt_is_Some_2 lines (Z.to_nat j)) as [line Hline]; [lia|].
    rewrite forallb_forall in Hk.
    assert (has_keys ["user"; "text"] line = true) as Hline'
      by (apply Hk, list_elem_of_In, list_elem_of_lookup; eauto).
    destruct (has_keys_dict _ _ Hline') as [d ->].
    destruct (has_keys_lookup _ _ "user" Hline') as [speaker Hs]; [in_list|].
    destruct (has_keys_lookup _ _ "text" Hline') as [text Ht]; [in_list|].
    rewrite (for_each_cons _ (flow_step_appends _)), Houts.
    unfold flow_step. rewrite (index_list _ _ _ (proj1 Hj) Hline).
    cbn [mbind result_bind].
    rewrite (getitem_Some _ _ _ Hs), (getitem_Some _ _ _ Ht).
    cbn [mbind result_bind app]. eexists. split; [done|].
    constructor; [|done]. exists (VDict d), speaker, text.
    repeat split; [lia|done|by apply getitem_Some..].
Qed.

Lemma transcripts_step_appends u r : appends (transcripts_step u r).
Proof.
  intros m acc. unfold transcripts_step. step_cases.
Qed.

(** One meeting of the expected shape: the step returns, and appends a
    flow exactly when some index is in context. *)
Lemma transcripts_step_Ok u r meeting :
  meeting_shaped meeting = true →
  ∃ o, transcripts_step u r meeting [] = Ok (option_list o) ∧
       ((¬ (∃ j, in_context u r (lines_of meeting) j) ∧ o = None) ∨
        ((∃ j, in_context u r (lines_of meeting) j) ∧
         ∃ idxs outs,
           o = Some (VDict {[ "meeting_id" := field "meeting_id" meeting;
                              "flow" := VList outs ]}) ∧
           StronglySorted Z.lt idxs ∧ NoDup idxs ∧
           (∀ j, j ∈ idxs ↔ in_context u r (lines_of meeting) j) ∧
           Forall2 (flow_entry (lines_of meeting)) idxs outs)).
Proof.
  intros [Hm Hlines]%andb_prop. unfold transcripts_step.
  pose proof (absent_or_list_get _ _ Hm) as Hget. fold (lines_of meeting) in Hget.
  destruct meeting as [| | | | |d]; try done.
  cbn [Py.get mbind result_bind] in Hget |- *. injection Hget as ->.
  cbn [Py.iter mbind result_bind].
  destruct (included_indices_Ok u r (lines_of (VDict d))) as (s & -> & Hs).
  { rewrite forallb_forall in Hlines |- *. intros l Hl.
    destruct (has_keys_dict _ _ (Hlines l Hl)) as [? ->]. done. }
  cbn [mbind result_bind]. case_bool_decide as Hempty; cbn [negb].
  - exists None. split; [done|]. left. split; [|done].
    intros [j Hj]. apply Hs in Hj. set_solver.
  - destruct (flow_loop (lines_of (VDict d)) (py_sorted s) Hlines)
      as (outs & -> & Houts).
    { apply Forall_forall. intros j Hj%py_sorted_elem%Hs. apply Hj. }
    cbn [mbind result_bind app]. eexists (Some _). split; [done|]. right.
    split.
    + apply set_choose_L in Hempty as [j Hj]. exists j. by apply Hs.
    + exists (py_sorted s), outs. split; [done|].
      split; [apply py_sorted_ascending|]. split; [apply py_sorted_NoDup|].
      split; [|done]. intros j. by rewrite py_sorted_elem.
Qed.

Lemma in_context_speaks u r lines :
  (0 ≤ r)%Z → (∃ j, in_context u r lines j) ↔ (∃ i, speaks_at u lines i).
Proof.
  intros Hr. split.
  - intros (j & _ & i & Hi & _). eauto.
  - intros (i & Hi). exists (Z.of_nat i). split.
    + destruct Hi as (l & Hl%lookup_lt_Some & _). lia.
    + exists i. split; [done|lia].
Qed.

(** C4: on meetings of the expected shape and with a radius that is not
    negative, the transcript extractor returns, in meeting order, nothing
    for a meeting without a turn of the user and exactly one flow for a
    meeting with one; the flow copies the lines at indices that are
    strictly increasing, free of duplicates, and exactly the valid indices
    within the radius of some turn of the user. *)
Theorem C4_context_flow_union (meetings : list value) (user_id : string)
    (radius : Z) :
  forallb meeting_shaped meetings = true →
  (0 ≤ radius)%Z →
  ∃ emitted : list (option value),
    get_user_meeting_transcripts_with_context (VList meetings) user_id radius
      = Ok (omap id emitted) ∧
    Forall2 (context_flow_at user_id radius) meetings emitted.
Proof.
  intros Hms Hr. unfold get_user_meeting_transcripts_with_context.
  cbn [Py.iter mbind result_bind].
  induction meetings as [|m ms IH].
  - exists []. by split; [|constructor].
  - simpl in Hms. apply andb_prop in Hms as [Hm Hms].
    destruct (IH Hms) as (os & Hos & Hall).
    destruct (transcripts_step_Ok user_id radius m Hm) as (o & Ho & Hflow).
    exists (o :: os). split.
    + rewrite (for_each_cons _ (transcripts_step_appends _ _)), Ho, Hos.
      cbn [mbind result_bind]. by destruct o.
    + constructor; [|done]. unfold context_flow_at.
      rewrite <- (in_context_speaks user_id radius _ Hr). exact Hflow.
Qed.

Lemma C4_context_flow_union_witness :
  ∃ emitted : list (option value),
    get_user_meeting_transcripts_with_context
      (VList [Examples.meeting_silent; Examples.meeting_five]) "A" 1
      = Ok (omap id emitted) ∧
    Forall2 (context_flow_at "A" 1)
      [Examples.meeting_silent; Examples.meeting_five] emitted.
Proof.
  apply C4_context_flow_union; [reflexivity|lia].
Defined.

(** ** Strings *)

Lemma append_cons (x : ascii) (a b : string) :
  String x a +:+ b = String x (a +:+ b).
Proof. reflexivity. Qed.

Lemma append_assoc (a b c : string) : (a +:+ b) +:+ c = a +:+ b +:+ c.
Proof.
  induction a as [|x a IH]; [done|]. by rewrite !append_cons, IH.
Qed.

Lemma prefix_append (a b : string) :
  String.prefix a b = true ↔ ∃ post, b = a +:+ post.
Proof.
  revert b. induction a as [|x a IH]; intros b.
  - split; [intros _; by exists b|by destruct b].
  - destruct b as [|y b]; simpl.
    + split; [done|intros [? [=]]].
    + destruct (ascii_dec x y) as [->|Hne].
      * rewrite IH. split; intros [post H]; exists post.
        -- by rewrite append_cons, H.
        -- rewrite append_cons in H. by injection H.
      * split; [done|]. intros [post H]. rewrite append_cons in H.
        by injection H.
Qed.

(** [str_in] decides occurrence. *)
Lemma str_in_occurs (needle hay : string) :
  Py.str_in needle hay = true ↔ occurs_in needle hay.
Proof.
  unfold occurs_in. induction hay as [|c hay IH]; cbn [Py.str_in].
  - rewrite orb_false_r, prefix_append. split.
    + intros [post H]. by exists "", post.
    + intros ([|??] & post & H); [by exists post|done].
  - rewrite orb_true_iff, prefix_append, IH. split.
    + intros [[post H]|(pre & post & H)].
      * by exists "", post.
      * exists (String c pre), post. by rewrite append_cons, H.
    + intros ([|x pre] & post & H).
      * left. by exists post.
      * right. rewrite append_cons in H. injection H as _ H. eauto.
Qed.

Lemma str_in_empty (hay : string) : Py.str_in "" hay = true.
Proof. apply str_in_occurs. by exists "", hay. Qed.


(** ** [extract_peer_kudos] *)

Lemma kudos_ack_step_appends u ch snippet :
  appends (kudos_ack_step u ch snippet).
Proof. intros fu acc. unfold kudos_ack_step. step_cases. Qed.

Lemma kudos_commit_step_appends u snippet :
  appends (kudos_commit_step u snippet).
Proof. intros c acc. unfold kudos_commit_step. step_cases. Qed.

Lemma kudos_step_appends u w gh ch ms : appends (kudos_step u w gh ch ms).
Proof.
  intros [i msg] acc. unfold kudos_step.
  destruct (Py.get msg "user" VNone) as [x|]; [|done]. cbn [mbind result_bind].
  destruct (Py.eq_str x u); [|cbn [mbind result_bind]; by rewrite app_nil_r].
  destruct (Py.get msg "contains_code" (VBool false)) as [cc|]; [|done].
  cbn [mbind result_bind]. destruct (Py.truthy cc); [|cbn [mbind result_bind]; by rewrite app_nil_r].
  destruct (Py.getitem msg "text") as [snippet|]; [|done].
  cbn [mbind result_bind].
  destruct (Py.getslice ms _ _) as [window|]; [|done]. cbn [mbind result_bind].
  destruct (Py.iter window) as [fus|]; [|done]. cbn [mbind result_bind].
  rewrite (for_each_appends _ (kudos_ack_step_appends u ch snippet) fus acc).
  destruct (Py.for_each fus _ []) as [ks1|]; [|done]. cbn [mbind result_bind].
  destruct (Py.get gh "commits" (VList [])) as [commits|]; [|done].
  cbn [mbind result_bind].
  destruct (Py.iter commits) as [cs|]; [|done]. cbn [mbind result_bind].
  rewrite (for_each_appends _ (kudos_commit_step_appends u snippet) cs
             (acc ++ ks1)),
    (for_each_appends _ (kudos_commit_step_appends u snippet) cs ks1).
  destruct (Py.for_each cs _ []) as [ks2|]; [|done]. cbn [mbind result_bind].
  by rewrite app_assoc.
Qed.

Lemma kudos_step_dict u w gh ch ms im ys :
  kudos_step u w gh ch ms im [] = Ok ys → is_dict im.2 = true.
Proof.
  destruct im as [i msg]. unfold kudos_step.
  intros (? & (? & -> & _)%get_Ok_inv & _)%bind_Ok_inv. done.
Qed.

Lemma extract_peer_kudos_scan slack gh u w :
  extract_peer_kudos slack gh u w = scan_channels (kudos_step u w gh) slack.
Proof. reflexivity. Qed.

(** One follow-up of the acknowledgment pass. *)
Lemma kudos_ack_step_Ok u ch snippet fu ys :
  kudos_ack_step u ch snippet fu [] = Ok ys ↔ ack_at u ch snippet fu ys.
Proof.
  unfold kudos_ack_step, ack_at. split.
  - intros (author & Hauthor & H)%bind_Ok_inv. exists author. split; [done|].
    destruct (Py.eq_str author u); cbn [negb] in H; [by injection H|].
    apply bind_Ok_inv in H as (to & Hto & H).
    apply bind_Ok_inv in H as (cid & Hcid & H).
    apply bind_Ok_inv in H as (text & Htext & [= <-]).
    eexists. split; [|done]. by exists to, cid, text.
  - intros (author & Hauthor & H). rewrite Hauthor. cbn [mbind result_bind].
    destruct (Py.eq_str author u); cbn [negb]; [by rewrite H|].
    destruct H as (fact & (to & cid & text & Hto & -> & -> & ->) & ->).
    rewrite Hauthor in Hto. by injection Hto as <-.
Qed.

Lemma text_or_empty_get c k :
  is_dict c = true → Py.get c k (VStr "") = Ok (text_or_empty k c).
Proof. by destruct c. Qed.

Lemma get_field c k :
  is_dict c = true → Py.get c k VNone = Ok (field k c).
Proof. by destruct c. Qed.

Lemma get_dict v k dflt x : Py.get v k dflt = Ok x → is_dict v = true.
Proof. by destruct v. Qed.

(** One commit of the commit pass. *)
Lemma kudos_commit_step_Ok u snippet c ys :
  kudos_commit_step u snippet c [] = Ok ys ↔ usage_at u snippet c ys.
Proof.
  unfold kudos_commit_step, usage_at, commit_text. split.
  - intros (author & Hauthor & H)%bind_Ok_inv.
    pose proof (get_dict _ _ _ _ Hauthor) as Hd. split; [done|].
    rewrite (get_field _ _ Hd) in Hauthor. injection Hauthor as <-.
    fold (committed_by u c) in H.
    destruct (committed_by u c); cbn [negb] in H; [by injection H|].
    rewrite !(text_or_empty_get _ _ Hd) in H. cbn [mbind result_bind] in H.
    destruct (text_or_empty "codediff" c) as [| | |diff| |]; try done.
    cbn [Py.add_str mbind result_bind] in H.
    destruct (text_or_empty "commit_message" c) as [| | |message| |]; try done.
    cbn [Py.str_add mbind result_bind] in H.
    destruct snippet as [| | |s|l|]; try done.
    cbn [Py.getslice Py.in_str mbind result_bind] in H.
    change 30%Z with (Z.of_nat 30) in H. rewrite str_slice_head in H.
    rewrite append_assoc in H.
    exists s, (diff +:+ " " +:+ message). split; [done|].
    split; [by exists diff, message|].
    destruct (Py.str_in _ _); [|by injection H].
    apply bind_Ok_inv in H as (to & Hto & H).
    apply bind_Ok_inv in H as (sha & Hsha & [= <-]).
    eexists. split; [|done]. by exists to, sha.
  - intros (Hd & H). rewrite (get_field _ _ Hd). cbn [mbind result_bind].
    fold (committed_by u c).
    destruct (committed_by u c); cbn [negb]; [by rewrite H|].
    destruct H as (s & t & -> & (diff & message & Hdiff & Hmsg & ->) & H).
    rewrite !(text_or_empty_get _ _ Hd), Hdiff, Hmsg.
    cbn [Py.add_str Py.str_add Py.getslice Py.in_str mbind result_bind].
    change 30%Z with (Z.of_nat 30). rewrite str_slice_head, append_assoc.
    destruct (Py.str_in _ _); [|by rewrite H].
    destruct H as (fact & (to & sha & -> & -> & ->) & ->). done.
Qed.

Lemma truthy_code_default (o : option value) :
  Py.truthy (default (VBool false) o) = Py.truthy (default VNone o).
Proof. by destruct o. Qed.

Lemma commits_iter gh cs u snippet out acc :
  (commits ← Py.get gh "commits" (VList []); Py.iter commits) = Ok cs →
  Py.for_each cs (kudos_commit_step u snippet) acc = Ok out →
  cs = commits_of gh.
Proof.
  intros (commits & (d & -> & ->)%get_Ok_inv & Hiter)%bind_Ok_inv Hloop.
  rewrite (for_each_appends _ (kudos_commit_step_appends u snippet)) in Hloop.
  apply bind_Ok_inv in Hloop as (zs & Hloop & _).
  unfold commits_of, field. destruct (d !! "commits") as [commits|]; simpl in *.
  - apply iter_dicts; [done|].
    eapply for_each_Forall;
      [apply kudos_commit_step_appends| |exact Hloop].
    intros c ys (Hd & _)%kudos_commit_step_Ok. done.
  - by injection Hiter as <-.
Qed.

(** One message of the kudos scan, when the step returns. *)
Lemma kudos_step_Ok_inv u w gh ch i msg ys :
  kudos_step u w gh ch (VList (messages_of ch)) (i, msg) [] = Ok ys →
  kudos_at u w gh (ch, (i, msg)) ys.
Proof.
  unfold kudos_step, kudos_at, qualifies. cbn [fst snd].
  intros (x & ->%get_user_field & H)%bind_Ok_inv.
  fold (authored_by u msg) in H.
  destruct (authored_by u msg); cbn [andb]; [|by injection H].
  apply bind_Ok_inv in H as (cc & (d & -> & ->)%get_Ok_inv & H).
  rewrite truthy_code_default in H.
  change (Py.truthy (default VNone (d !! "contains_code")))
    with (contains_code (VDict d)) in H.
  destruct (contains_code (VDict d)); [|by injection H].
  apply bind_Ok_inv in H as (snippet & Hsnippet & H).
  cbn [Py.getslice Py.iter mbind result_bind] in H.
  apply bind_Ok_inv in H as (ks1 & Hacks & H).
  destruct (Py.get gh "commits" (VList []) ≫= Py.iter) as [cs|] eqn:Hcs.
  - assert (Py.for_each cs (kudos_commit_step u snippet) ks1 = Ok ys) as Hus.
    { apply bind_Ok_inv in Hcs as (commits & Hc & Hi). rewrite Hc in H.
      cbn [mbind result_bind] in H. by rewrite Hi in H. }
    pose proof (commits_iter _ _ _ _ _ _ Hcs Hus) as ->.
    rewrite (for_each_appends _ (kudos_commit_step_appends u snippet)) in Hus.
    apply bind_Ok_inv in Hus as (ks2 & Hus & [= <-]).
    apply (for_each_Ok _ (kudos_ack_step_appends u ch snippet)) in Hacks
      as (ack_lists & Hacks & ->).
    apply (for_each_Ok _ (kudos_commit_step_appends u snippet)) in Hus
      as (usage_lists & Hus & ->).
    exists snippet, ack_lists, usage_lists. repeat split; [done| | ].
    + eapply Forall2_impl; [exact Hacks|]. intros fu zs.
      apply kudos_ack_step_Ok.
    + eapply Forall2_impl; [exact Hus|]. intros c zs.
      apply kudos_commit_step_Ok.
  - exfalso. destruct (Py.get gh "commits" (VList [])) as [commits|]; [|done].
    cbn [mbind result_bind] in H, Hcs. by rewrite Hcs in H.
Qed.

(** Conversely, the step returns what [kudos_at] describes. *)
Lemma kudos_step_Ok u w gh ch i msg ys :
  is_dict msg = true →
  absent_or_list "commits" gh = true →
  kudos_at u w gh (ch, (i, msg)) ys →
  kudos_step u w gh ch (VList (messages_of ch)) (i, msg) [] = Ok ys.
Proof.
  intros Hd Hgh. unfold kudos_step, kudos_at, qualifies. cbn [fst snd].
  rewrite (get_field _ _ Hd). cbn [mbind result_bind].
  fold (authored_by u msg).
  destruct (authored_by u msg); cbn [andb]; [|by intros ->].
  destruct msg as [| | | | |d]; try done.
  cbn [Py.get mbind result_bind]. rewrite truthy_code_default.
  change (Py.truthy (default VNone (d !! "contains_code")))
    with (contains_code (VDict d)).
  destruct (contains_code (VDict d)); [|by intros ->].
  intros (snippet & ack_lists & usage_lists & -> & Hacks & Hus & ->).
  cbn [Py.getslice Py.iter mbind result_bind].
  assert (Py.for_each (Py.slice (messages_of ch) (Z.of_nat i + 1)
                         (Z.of_nat i + 1 + w))
            (kudos_ack_step u ch snippet) [] = Ok (mjoin ack_lists)) as ->.
  { apply (for_each_Ok _ (kudos_ack_step_appends u ch snippet)).
    exists ack_lists. split; [|done].
    eapply Forall2_impl; [exact Hacks|]. intros fu zs.
    apply kudos_ack_step_Ok. }
  cbn [mbind result_bind]. rewrite (absent_or_list_get _ _ Hgh).
  cbn [Py.iter mbind result_bind]. fold (commits_of gh).
  rewrite (for_each_appends _ (kudos_commit_step_appends u snippet)).
  assert (Py.for_each (commits_of gh) (kudos_commit_step u snippet) []
          = Ok (mjoin usage_lists)) as ->; [|done].
  apply (for_each_Ok _ (kudos_commit_step_appends u snippet)).
  exists usage_lists. split; [|done].
  eapply Forall2_impl; [exact Hus|]. intros c zs. apply kudos_commit_step_Ok.
Qed.

(** The whole scan, when it returns: message by message, in scan order,
    what [kudos_at] describes. *)
Lemma extract_peer_kudos_Ok_inv slack gh u w ks :
  extract_peer_kudos slack gh u w = Ok ks →
  ∃ yss, Forall2 (kudos_at u w gh) (positions slack) yss ∧ ks = mjoin yss.
Proof.
  rewrite extract_peer_kudos_scan. intros H.
  apply scan_channels_Ok_inv in H as (yss & Hall & ->);
    [|apply kudos_step_appends|apply kudos_step_dict].
  exists yss. split; [|done]. eapply Forall2_impl; [exact Hall|].
  intros [ch [i msg]] ys. apply kudos_step_Ok_inv.
Qed.

(** *** The scan returns on inputs of the expected shape *)

Lemma Forall_exists_Forall2 {A B} (R : A → B → Prop) (l : list A) :
  Forall (λ x, ∃ y, R x y) l → ∃ ys, Forall2 R l ys.
Proof.
  induction 1 as [|x l [y Hy] _ [ys Hys]].
  - exists []. constructor.
  - exists (y :: ys). by constructor.
Qed.

Lemma slice_Forall {A} (P : A → Prop) (l : list A) (lo hi : Z) :
  Forall P l → Forall P (Py.slice l lo hi).
Proof. intros H. unfold Py.slice. by apply Forall_take, Forall_drop. Qed.

Lemma forallb_Forall {A} (f : A → bool) (l : list A) :
  forallb f l = true ↔ Forall (λ x, f x = true) l.
Proof.
  rewrite forallb_forall, Forall_forall.
  split; intros H x Hx; apply H; by apply list_elem_of_In.
Qed.

Lemma has_keys_getitem ks v k :
  has_keys ks v = true → k ∈ ks → ∃ x, Py.getitem v k = Ok x.
Proof.
  intros Hv Hk. destruct (has_keys_dict _ _ Hv) as [d ->].
  destruct (has_keys_lookup _ _ _ Hv Hk) as [x Hx].
  exists x. by apply getitem_Some.
Qed.

Lemma ack_at_exists u ch snippet fu :
  has_keys ["channel_id"] ch = true →
  has_keys ["user"; "text"] fu = true →
  ∃ ys, ack_at u ch snippet fu ys.
Proof.
  intros Hch Hfu. unfold ack_at, ack_fact.
  destruct (has_keys_getitem _ _ "channel_id" Hch) as [cid Hcid]; [in_list|].
  destruct (has_keys_getitem _ _ "user" Hfu) as [author Hauthor]; [in_list|].
  destruct (has_keys_getitem _ _ "text" Hfu) as [text Htext]; [in_list|].
  destruct (Py.eq_str author u) eqn:E.
  - exists [], author. by rewrite E.
  - eexists [_], author. rewrite E. split; [done|].
    eexists. split; [|done]. by exists author, cid, text.
Qed.

Lemma absent_or_str_text k c :
  absent_or_str k c = true → ∃ t, text_or_empty k c = VStr t.
Proof.
  destruct c as [| | | | |d]; try done. simpl.
  destruct (d !! k) as [[]|]; try done; eauto.
Qed.

Lemma usage_at_exists u s c :
  commit_shaped c = true → ∃ ys, usage_at u (VStr s) c ys.
Proof.
  intros [[Hk Hdiff]%andb_prop Hmsg]%andb_prop. unfold usage_at, usage_fact.
  destruct (has_keys_dict _ _ Hk) as [d ->].
  destruct (has_keys_getitem _ _ "author" Hk) as [author Hauthor]; [in_list|].
  destruct (has_keys_getitem _ _ "sha" Hk) as [sha Hsha]; [in_list|].
  destruct (absent_or_str_text _ _ Hdiff) as [diff Hd].
  destruct (absent_or_str_text _ _ Hmsg) as [message Hm].
  destruct (committed_by u (VDict d)) eqn:E; [by exists []|].
  destruct (Py.str_in (substring 0 30 s) (diff +:+ " " +:+ message)) eqn:Hin.
  - eexists [_]. split; [done|]. exists s, (diff +:+ " " +:+ message).
    split; [done|]. split; [by exists diff, message|]. rewrite Hin.
    eexists. split; [|done]. by exists author, sha.
  - exists []. split; [done|]. exists s, (diff +:+ " " +:+ message).
    split; [done|]. split; [by exists diff, message|]. by rewrite Hin.
Qed.

Lemma kudos_at_exists u w gh ch i msg :
  channel_shaped ch = true → message_shaped msg = true →
  github_shaped gh = true →
  ∃ ys, kudos_at u w gh (ch, (i, msg)) ys.
Proof.
  intros [[Hcid _]%andb_prop Hmsgs]%andb_prop [Hmsg Htext]%andb_prop
    [_ Hcs]%andb_prop.
  unfold kudos_at. cbn [fst snd].
  destruct (qualifies u msg); [|by exists []].
  destruct (has_keys_dict _ _ Hmsg) as [d ->].
  destruct (has_keys_lookup _ _ "text" Hmsg) as [snippet Hsn]; [in_list|].
  simpl in Htext. rewrite Hsn in Htext.
  destruct snippet as [| | |s| |]; try done.
  destruct (Forall_exists_Forall2 (ack_at u ch (VStr s))
              (Py.slice (messages_of ch) (Z.of_nat i + 1)
                 (Z.of_nat i + 1 + w))) as [ack_lists Hacks].
  { apply slice_Forall. apply forallb_Forall in Hmsgs.
    eapply Forall_impl; [exact Hmsgs|]. intros fu [Hfu _]%andb_prop.
    by apply ack_at_exists. }
  destruct (Forall_exists_Forall2 (usage_at u (VStr s)) (commits_of gh))
    as [usage_lists Hus].
  { apply forallb_Forall in Hcs. eapply Forall_impl; [exact Hcs|].
    intros c Hc. by apply usage_at_exists. }
  eexists. exists (VStr s), ack_lists, usage_lists.
  by rewrite (getitem_Some _ _ _ Hsn).
Qed.

Lemma positions_shaped slack :
  slack_complete slack = true →
  Forall (λ p, channel_shaped p.1 = true ∧ message_shaped p.2.2 = true)
    (positions slack).
Proof.
  intros [_ Hchs]%andb_prop. unfold positions.
  induction (channels_of slack) as [|ch chs IH]; simpl in *; [constructor|].
  apply andb_prop in Hchs as [Hch Hchs]. apply Forall_app. split; [|by apply IH].
  apply Forall_fmap, Forall_forall. intros [i msg] Hin. simpl. split; [done|].
  apply andb_prop in Hch as [_ Hmsgs]. apply forallb_Forall in Hmsgs.
  unfold Py.enumerate in Hin. apply list_elem_of_lookup in Hin as [j Hj].
  rewrite list_lookup_imap in Hj.
  destruct (messages_of ch !! j) as [m|] eqn:E; [|done].
  injection Hj as _ <-. eapply Forall_lookup_1 in Hmsgs; [|exact E]. done.
Qed.

Lemma slack_complete_shaped slack :
  slack_complete slack = true → slack_shaped slack = true.
Proof.
  intros [Hs Hchs]%andb_prop. unfold slack_shaped. rewrite Hs. simpl.
  apply forallb_Forall. apply forallb_Forall in Hchs.
  eapply Forall_impl; [exact Hchs|].
  by intros ch [[_ ?]%andb_prop _]%andb_prop.
Qed.

(** On inputs of the expected shape the scan returns, and what it returns
    is described message by message by [kudos_at]. *)
Lemma extract_peer_kudos_returns slack gh u w :
  slack_complete slack = true → github_shaped gh = true →
  ∃ yss,
    extract_peer_kudos slack gh u w = Ok (mjoin yss) ∧
    Forall2 (kudos_at u w gh) (positions slack) yss.
Proof.
  intros Hs Hgh.
  destruct (Forall_exists_Forall2 (kudos_at u w gh) (positions slack))
    as [yss Hyss].
  { eapply Forall_impl; [exact (positions_shaped _ Hs)|].
    intros [ch [i msg]] [Hch Hmsg]. by apply kudos_at_exists. }
  exists yss. split; [|done]. rewrite extract_peer_kudos_scan.
  apply scan_channels_Ok;
    [apply kudos_step_appends|by apply slack_complete_shaped|].
  pose proof (positions_shaped _ Hs) as Hps.
  induction Hyss as [|[ch [i msg]] ys ps yss Hp _ IH]; [constructor|].
  apply Forall_cons in Hps as [[_ [Hd _]%andb_prop] Hps].
  constructor; [|by apply IH]. cbn [fst snd].
  apply kudos_step_Ok; [|by apply andb_prop in Hgh as [? _]|done].
  cbn [fst snd] in Hd. by destruct (has_keys_dict _ _ Hd) as [? ->].
Qed.

(** ** The claims about [extract_peer_kudos] *)

Lemma Forall2_join_elem {A B} (R : A → list B → Prop) (l : list A)
    (yss : list (list B)) (y : B) :
  Forall2 R l yss → y ∈ mjoin yss → ∃ x ys, x ∈ l ∧ R x ys ∧ y ∈ ys.
Proof.
  intros Hall (ys & Hy & Hys)%list_elem_of_join.
  apply list_elem_of_lookup in Hys as [i Hi].
  destruct (Forall2_lookup_r _ _ _ _ _ Hall Hi) as (x & Hx & HR).
  exists x, ys. split; [|done]. apply list_elem_of_lookup. eauto.
Qed.

Lemma ack_fact_type u ch snippet fu fact :
  ack_fact u ch snippet fu fact → has_type "slack_ack" fact.
Proof. by intros (to & cid & text & _ & _ & _ & ->). Qed.

Lemma usage_fact_type u snippet c fact :
  usage_fact u snippet c fact → has_type "github_usage" fact.
Proof. by intros (to & sha & _ & _ & ->). Qed.

Lemma ack_at_elem u ch snippet fu ys fact :
  ack_at u ch snippet fu ys → fact ∈ ys → ack_fact u ch snippet fu fact.
Proof.
  intros (author & _ & H) Hin. destruct (Py.eq_str author u).
  - subst ys. by apply elem_of_nil in Hin.
  - destruct H as (f & Hf & ->). by apply list_elem_of_singleton in Hin as ->.
Qed.

Lemma usage_at_elem u snippet c ys fact :
  usage_at u snippet c ys → fact ∈ ys →
  committed_by u c = false ∧
  ∃ s t, snippet = VStr s ∧ commit_text c t ∧
         Py.str_in (substring 0 30 s) t = true ∧
         usage_fact u snippet c fact.
Proof.
  intros (_ & H) Hin. destruct (committed_by u c).
  - subst ys. by apply elem_of_nil in Hin.
  - split; [done|]. destruct H as (s & t & -> & Ht & H).
    exists s, t. destruct (Py.str_in _ _).
    + destruct H as (f & Hf & ->).
      by apply list_elem_of_singleton in Hin as ->.
    + subst ys. by apply elem_of_nil in Hin.
Qed.




Lemma getitem_field v k x : Py.getitem v k = Ok x → field k v = x.
Proof. intros (d & -> & Hx)%getitem_Ok_inv. simpl. by rewrite Hx. Qed.

(** The acknowledgment pass keeps exactly the follow-ups of the others. *)
Lemma ack_lists_others u ch snippet (l : list value) ack_lists :
  Forall2 (ack_at u ch snippet) l ack_lists →
  Forall2 (ack_fact u ch snippet) (others u l) (mjoin ack_lists).
Proof.
  induction 1 as [|fu ys l yss (author & Hauthor & Hfu) _ IH]; [constructor|].
  cbn [others List.filter]. fold (others u l).
  unfold authored_by. rewrite (getitem_field _ _ _ Hauthor).
  destruct (Py.eq_str author u); cbn [negb].
  - by subst ys.
  - destruct Hfu as (fact & Hfact & ->). by constructor.
Qed.

Lemma usage_lists_typed u snippet (cs : list value) usage_lists :
  Forall2 (usage_at u snippet) cs usage_lists →
  Forall (has_type "github_usage") (mjoin usage_lists).
Proof.
  intros Hall. apply Forall_forall. intros fact Hin.
  destruct (Forall2_join_elem _ _ _ _ Hall Hin) as (c & zs & _ & Hu & Hz).
  destruct (usage_at_elem _ _ _ _ _ Hu Hz) as (_ & s & t & _ & _ & _ & Hf).
  by eapply usage_fact_type.
Qed.

Lemma ack_lists_typed u ch snippet (l : list value) ack_lists :
  Forall2 (ack_at u ch snippet) l ack_lists →
  Forall (has_type "slack_ack") (mjoin ack_lists).
Proof.
  intros Hall. apply Forall_forall. intros fact Hin.
  destruct (Forall2_join_elem _ _ _ _ Hall Hin) as (fu & zs & _ & Hfu & Hz).
  eapply ack_fact_type, ack_at_elem; eauto.
Qed.

Lemma kudos_at_acks u w gh p ys :
  (0 ≤ w)%Z → kudos_at u w gh p ys → acks_at u w p ys.
Proof.
  intros Hw Hp Hq. unfold kudos_at in Hp. rewrite Hq in Hp.
  destruct Hp as (snippet & ack_lists & usage_lists & Hsn & Hacks & Hus & ->).
  exists snippet, (mjoin ack_lists), (mjoin usage_lists).
  repeat split; [done| |by eapply usage_lists_typed].
  rewrite slice_window in Hacks by done. by apply ack_lists_others.
Qed.

(** C2: on inputs of the expected shape and with a window that is not
    negative, the kudos scan returns, message by message in scan order,
    and a message of the user with a true code flag contributes one
    [slack_ack] fact for every message among the next [w] of its channel
    that is not by the user, each with the channel id, the text of the
    shared message as snippet and the text of that follow-up as
    acknowledgment; after them come facts of the commit pass only. *)
Theorem C2_ack_for_every_follow_up (slack_data github_data : value)
    (user_id : string) (w : Z) :
  slack_complete slack_data = true →
  github_shaped github_data = true →
  (0 ≤ w)%Z →
  ∃ yss,
    extract_peer_kudos slack_data github_data user_id w = Ok (mjoin yss) ∧
    Forall2 (acks_at user_id w) (positions slack_data) yss.
Proof.
  intros Hs Hgh Hw.
  destruct (extract_peer_kudos_returns slack_data github_data user_id w Hs Hgh)
    as (yss & Hyss & Hall).
  exists yss. split; [done|]. eapply Forall2_impl; [exact Hall|].
  intros p ys. by apply kudos_at_acks.
Qed.

Lemma C2_ack_for_every_follow_up_witness :
  ∃ yss,
    extract_peer_kudos Examples.slack_acks Examples.github_ab "A" 3
      = Ok (mjoin yss) ∧
    Forall2 (acks_at "A" 3) (positions Examples.slack_acks) yss.
Proof.
  apply C2_ack_for_every_follow_up; [reflexivity|reflexivity|lia].
Defined.

(** The scan on the example: B and C, both within three positions of the
    shared code, are acknowledged; D, at the fourth, is not. *)
Example kudos_acks_example :
  extract_peer_kudos Examples.slack_acks Examples.github_ab "A" 3 =
  Ok [VDict {[ "from_user" := VStr "A"; "to_user" := VStr "B";
               "channel" := VStr "dev"; "code_snippet" := VStr "x = 1";
               "ack_text" := VStr "thanks"; "type" := VStr "slack_ack" ]};
      VDict {[ "from_user" := VStr "A"; "to_user" := VStr "C";
               "channel" := VStr "dev"; "code_snippet" := VStr "x = 1";
               "ack_text" := VStr "neat"; "type" := VStr "slack_ack" ]}].
Proof. vm_compute. reflexivity. Qed.

(** C7: in the scenario of the specification (user A shares the
    code-flagged snippet [def foo(): return 1] in a channel without
    follow-ups, and the only commit, by B, has that text somewhere in its
    diff) the kudos scan returns exactly one fact, of type [github_usage],
    and so none of type [slack_ack]; this for every channel id, commit
    sha, commit message, and text around the snippet in the diff. *)
Theorem C7_snippet_reused_in_commit (cid sha : value)
    (before after message : string) :
  extract_peer_kudos (Examples.foo_slack cid)
    (Examples.foo_github sha
       (before +:+ Examples.foo_snippet +:+ after) message) "A" 3
  = Ok [Examples.foo_usage sha].
Proof.
  rewrite extract_peer_kudos_scan.
  apply (scan_channels_Ok _ (kudos_step_appends _ _ _) _
           [[Examples.foo_usage sha]]); [reflexivity|].
  change (positions (Examples.foo_slack cid))
    with [(Examples.foo_channel cid, (0%nat, Examples.foo_message))].
  constructor; [|constructor]. cbn [fst snd].
  apply kudos_step_Ok; [reflexivity|reflexivity|].
  unfold kudos_at. cbn [fst snd].
  change (qualifies "A" Examples.foo_message) with true. cbv iota.
  exists (VStr Examples.foo_snippet), [], [[Examples.foo_usage sha]].
  split; [reflexivity|]. split; [|split; [|reflexivity]].
  - change (Py.slice _ _ _) with (@nil value). constructor.
  - change (commits_of _)
      with [Examples.foo_commit sha
              (before +:+ Examples.foo_snippet +:+ after) message].
    constructor; [|constructor]. split; [reflexivity|].
    change (committed_by "A" _) with false. cbv iota.
    eexists Examples.foo_snippet, _. split; [done|].
    split; [eexists _, _; repeat split; reflexivity|].
    assert (Py.str_in (substring 0 30 Examples.foo_snippet)
              ((before +:+ Examples.foo_snippet +:+ after) +:+ " " +:+ message)
            = true) as ->.
    { apply str_in_occurs. exists before, (after +:+ " " +:+ message).
      by rewrite !append_assoc. }
    eexists. split; [|done]. by exists (VStr "B"), sha.
Qed.

Lemma usage_lists_empty_snippet u (cs : list value) usage_lists :
  Forall2 (usage_at u (VStr "")) cs usage_lists →
  Forall2 (usage_fact u (VStr ""))
    (List.filter (λ c, negb (committed_by u c)) cs) (mjoin usage_lists).
Proof.
  induction 1 as [|c ys cs yss (_ & Hc) _ IH]; [constructor|].
  cbn [List.filter]. destruct (committed_by u c); cbn [negb].
  - by subst ys.
  - destruct Hc as (s & t & [= <-] & _ & Hc).
    change (substring 0 30 "") with "" in Hc. rewrite str_in_empty in Hc.
    destruct Hc as (fact & Hfact & ->). by constructor.
Qed.

Lemma kudos_at_empty_usages u w gh p ys :
  kudos_at u w gh p ys → empty_usages_at u gh p ys.
Proof.
  intros Hp Hq Htext. unfold kudos_at in Hp. rewrite Hq in Hp.
  destruct Hp as (snippet & ack_lists & usage_lists & Hsn & Hacks & Hus & ->).
  rewrite Htext in Hsn. injection Hsn as <-.
  exists (mjoin ack_lists), (mjoin usage_lists).
  split; [done|]. split; [by eapply ack_lists_typed|].
  by apply usage_lists_empty_snippet.
Qed.

(** C8: on inputs of the expected shape the kudos scan returns, and a
    message of the user with a true code flag and the empty text
    contributes one [github_usage] fact for every commit of the collection
    whose author is not the user. *)
Theorem C8_empty_snippet_matches_every_commit (slack_data github_data : value)
    (user_id : string) (w : Z) :
  slack_complete slack_data = true →
  github_shaped github_data = true →
  ∃ yss,
    extract_peer_kudos slack_data github_data user_id w = Ok (mjoin yss) ∧
    Forall2 (empty_usages_at user_id github_data) (positions slack_data) yss.
Proof.
  intros Hs Hgh.
  destruct (extract_peer_kudos_returns slack_data github_data user_id w Hs Hgh)
    as (yss & Hyss & Hall).
  exists yss. split; [done|]. eapply Forall2_impl; [exact Hall|].
  intros p ys. apply kudos_at_empty_usages.
Qed.

Lemma C8_empty_snippet_matches_every_commit_witness :
  ∃ yss,
    extract_peer_kudos Examples.slack_empty Examples.github_xy "A" 3
      = Ok (mjoin yss) ∧
    Forall2 (empty_usages_at "A" Examples.github_xy)
      (positions Examples.slack_empty) yss.
Proof.
  apply C8_empty_snippet_matches_every_commit; reflexivity.
Defined.






(** *** Commits without a diff or a message *)

Lemma for_each_ext {A S} (body1 body2 : A → S → result S) (l : list A) (s : S) :
  (∀ x s, body1 x s = body2 x s) →
  Py.for_each l body1 s = Py.for_each l body2 s.
Proof.
  intros Hext. revert s. induction l as [|x l IH]; intros s; simpl; [done|].
  rewrite Hext. destruct (body2 x s) as [s'|]; simpl; [apply IH|done].
Qed.








(** ** Missing fields *)

Lemma getitem_has_key v k x : Py.getitem v k = Ok x → has_keys [k] v = true.
Proof.
  intros (d & -> & Hx)%getitem_Ok_inv. simpl. rewrite Hx.
  by rewrite bool_decide_eq_true_2 by eauto.
Qed.

Lemma has_keys_cons k ks v :
  has_keys (k :: ks) v = has_keys [k] v && has_keys ks v.
Proof.
  destruct v as [| | | | |d]; try done. simpl. by rewrite andb_true_r.
Qed.













(** The scenarios of the specification. *)
Example received_code_scenario :
  get_user_received_code Examples.slack_general "A" =
  Ok [VDict {[ "channel" := VStr "general"; "from_user" := VStr "B";
               "code_snippet" := VStr "```for x in y```";
               "acknowledged_by_user" := VStr "nice, thanks" ]}].
Proof. vm_compute. reflexivity. Qed.

Example context_flow_scenario :
  get_user_meeting_transcripts_with_context
    (VList [Examples.meeting_five]) "A" 1 =
  Ok [VDict {[ "meeting_id" := VStr "m1";
               "flow" := VList [Examples.turn "C" "t1"; Examples.turn "A" "t2";
                                Examples.turn "B" "t3"] ]}].
Proof. vm_compute. reflexivity. Qed.


(** * Further properties of the extractors *)

(** ** Loops *)

Lemma for_each_app {A S} (body : A → S → result S) (l1 l2 : list A) (s : S) :
  Py.for_each (l1 ++ l2) body s =
  s' ← Py.for_each l1 body s; Py.for_each l2 body s'.
Proof.
  revert s. induction l1 as [|x l1 IH]; intros s; simpl; [done|].
  destruct (body x s) as [s'|]; simpl; [apply IH|done].
Qed.

Lemma for_each_enumerate {A St} (body : A → St → result St) (l : list A)
    (s : St) :
  Py.for_each (Py.enumerate l) (λ im, body im.2) s = Py.for_each l body s.
Proof.
  assert (∀ (f : nat → nat) s,
            Py.for_each (imap (λ i x, (f i, x)) l) (λ im, body im.2) s
            = Py.for_each l body s) as H.
  { induction l as [|x l IH]; intros f s'; simpl; [done|].
    destruct (body x s') as [s''|]; simpl; [|done]. apply (IH (f ∘ Datatypes.S)). }
  apply (H id).
Qed.

Lemma for_each_concat {A B} (body : A → list B → result (list B))
    (l1 l2 : list A) :
  appends body →
  Py.for_each (l1 ++ l2) body [] =
  xs ← Py.for_each l1 body []; ys ← Py.for_each l2 body []; Ok (xs ++ ys).
Proof.
  intros Happ. rewrite for_each_app.
  destruct (Py.for_each l1 body []) as [xs|]; [|done]. cbn [mbind result_bind].
  apply for_each_appends, Happ.
Qed.

Lemma for_each_member_raises {A B} (body : A → list B → result (list B))
    (l : list A) (x : A) :
  appends body → x ∈ l → raises (body x []) →
  raises (Py.for_each l body []).
Proof.
  intros Happ Hin Hx.
  destruct (Py.for_each l body []) as [out|e] eqn:E; [|done].
  apply (for_each_Ok _ Happ) in E as (yss & Hall & _).
  apply list_elem_of_lookup in Hin as [i Hi].
  destruct (Forall2_lookup_l _ _ _ _ _ Hall Hi) as (ys & _ & Hys).
  by rewrite Hys in Hx.
Qed.

(** ** [get_user_slack_messages] *)

Lemma slack_messages_step_appends u ch : appends (slack_messages_step u ch).
Proof. intros msg acc. unfold slack_messages_step. step_cases. Qed.

Lemma get_user_slack_messages_scan slack u :
  get_user_slack_messages slack u =
  scan_channels (λ ch _ im, slack_messages_step u ch im.2) slack.
Proof.
  unfold get_user_slack_messages, scan_channels.
  destruct (Py.get slack "channels" (VList [])) as [channels|]; [|done].
  cbn [mbind result_bind].
  destruct (Py.iter channels) as [chs|]; [|done]. cbn [mbind result_bind].
  apply for_each_ext. intros ch acc. unfold slack_messages_channel, scan_channel.
  destruct (Py.get ch "messages" (VList [])) as [messages|]; [|done].
  cbn [mbind result_bind].
  destruct (Py.iter messages) as [ms|]; [|done]. cbn [mbind result_bind].
  symmetry. apply (for_each_enumerate (slack_messages_step u ch)).
Qed.

Lemma flag_or_false_get msg :
  is_dict msg = true →
  Py.get msg "contains_code" (VBool false) = Ok (flag_or_false msg).
Proof. by destruct msg. Qed.

(** One message of the personal message extractor. *)
Lemma slack_messages_step_Ok u ch i msg ys :
  slack_messages_step u ch msg [] = Ok ys ↔
  is_dict msg = true ∧
  ∃ o, ys = option_list o ∧ own_message_at u (ch, (i, msg)) o.
Proof.
  unfold slack_messages_step, own_message_at, message_record. cbn [fst snd].
  split.
  - intros (x & Hx & H)%bind_Ok_inv.
    pose proof (get_dict _ _ _ _ Hx) as Hd. split; [done|].
    apply get_user_field in Hx as ->. fold (authored_by u msg) in H.
    destruct (authored_by u msg); [|injection H as <-; by exists None].
    apply bind_Ok_inv in H as (cid & Hcid & H).
    apply bind_Ok_inv in H as (ts & Hts & H).
    apply bind_Ok_inv in H as (text & Htext & H).
    rewrite (flag_or_false_get _ Hd) in H. injection H as <-.
    eexists (Some _). split; [done|]. eexists. split; [|done].
    by exists cid, ts, text.
  - intros (Hd & o & -> & H). rewrite (get_field _ _ Hd).
    cbn [mbind result_bind]. fold (authored_by u msg).
    destruct (authored_by u msg); [|by subst o].
    destruct H as (out & (cid & ts & text & -> & -> & -> & ->) & ->).
    cbn [mbind result_bind]. by rewrite (flag_or_false_get _ Hd).
Qed.

Lemma own_message_at_exists u p :
  message_readable u p = true → ∃ o, own_message_at u p o.
Proof.
  destruct p as [ch [i msg]]. unfold message_readable, own_message_at.
  cbn [fst snd]. intros [_ H]%andb_prop.
  destruct (authored_by u msg); cbn [negb orb] in H; [|by exists None].
  apply andb_prop in H as [Hmsg Hch].
  destruct (has_keys_getitem _ _ "channel_id" Hch) as [cid Hcid]; [in_list|].
  destruct (has_keys_getitem _ _ "ts" Hmsg) as [ts Hts]; [in_list|].
  destruct (has_keys_getitem _ _ "text" Hmsg) as [text Htext]; [in_list|].
  eexists (Some _), _. split; [|done]. by exists cid, ts, text.
Qed.

Lemma join_option_list {A} (os : list (option A)) :
  mjoin (option_list <$> os) = omap id os.
Proof.
  induction os as [|[x|] os IH]; [done| |].
  - change (x :: mjoin (option_list <$> os) = x :: omap id os). by rewrite IH.
  - change (mjoin (option_list <$> os) = omap id os). done.
Qed.

(** X1: on a document whose messages are dicts and in which every
    message of the user has a [ts] and a [text] and lies in a channel with
    a [channel_id], the personal message extractor returns, in scan order,
    exactly one record for every message of the user and nothing for the
    others; the record has the channel id, the message's timestamp and
    text, and its code flag, [False] when the message has none. *)
Theorem X1_own_messages_listed (slack_data : value) (user_id : string) :
  slack_readable user_id slack_data = true →
  ∃ emitted : list (option value),
    get_user_slack_messages slack_data user_id = Ok (omap id emitted) ∧
    Forall2 (own_message_at user_id) (positions slack_data) emitted.
Proof.
  intros [Hs Hps]%andb_prop. apply forallb_Forall in Hps.
  destruct (Forall_exists_Forall2 (own_message_at user_id)
              (positions slack_data)) as [emitted Hem].
  { eapply Forall_impl; [exact Hps|]. intros p. apply own_message_at_exists. }
  exists emitted. split; [|done]. rewrite get_user_slack_messages_scan.
  rewrite <- join_option_list.
  apply scan_channels_Ok; [intros ch _ [i msg]; apply slack_messages_step_appends|done|].
  apply Forall2_fmap_r.
  revert Hps. induction Hem as [|[ch [i msg]] o ps os Hp _ IH];
    intros Hps; [constructor|].
  apply Forall_cons in Hps as [[Hd _]%andb_prop Hps].
  constructor; [|by apply IH]. cbn [fst snd] in *.
  apply (slack_messages_step_Ok _ _ i). eauto.
Qed.

Lemma X1_own_messages_listed_witness :
  ∃ emitted : list (option value),
    get_user_slack_messages Examples.slack_notes "A" = Ok (omap id emitted) ∧
    Forall2 (own_message_at "A") (positions Examples.slack_notes) emitted.
Proof. apply X1_own_messages_listed. reflexivity. Defined.

Lemma message_record_keys ch msg out :
  message_record ch msg out →
  has_keys ["ts"; "text"] msg && has_keys ["channel_id"] ch = true.
Proof.
  intros (cid & ts & text & Hcid & Hts & Htext & _).
  rewrite (has_keys_cons "ts"), (getitem_has_key _ _ _ Hcid),
    (getitem_has_key _ _ _ Hts), (getitem_has_key _ _ _ Htext). done.
Qed.

(** X2: the personal message extractor fails fast: when some message of
    the user has no [ts] or no [text], or lies in a channel without a
    [channel_id], the call raises, whatever the rest of the document. *)
Theorem X2_own_message_missing_field_raises (slack_data : value)
    (user_id : string) (channel : value) (i : nat) (msg : value) :
  (channel, (i, msg)) ∈ positions slack_data →
  authored_by user_id msg = true →
  has_keys ["ts"; "text"] msg && has_keys ["channel_id"] channel = false →
  raises (get_user_slack_messages slack_data user_id).
Proof.
  intros Hin Hby Hmiss. rewrite get_user_slack_messages_scan.
  apply (scan_channels_raises (λ ch _ im, slack_messages_step user_id ch im.2))
    with (p := (channel, (i, msg))); [| |done|].
  - intros ch _ [j m]. apply slack_messages_step_appends.
  - intros ch _ [j m] ys (Hd & _)%(slack_messages_step_Ok _ _ j). done.
  - cbn [fst snd].
    destruct (slack_messages_step _ _ _ _) as [ys|] eqn:E; [|done]. exfalso.
    apply (slack_messages_step_Ok _ _ i) in E as (_ & o & _ & Ho).
    unfold own_message_at in Ho. cbn [fst snd] in Ho. rewrite Hby in Ho.
    destruct Ho as (out & Hout%message_record_keys & _). congruence.
Qed.

Lemma X2_own_message_missing_field_raises_witness :
  raises (get_user_slack_messages Examples.slack_no_ts "A").
Proof.
  apply (X2_own_message_missing_field_raises Examples.slack_no_ts "A"
           Examples.channel_no_ts 0 Examples.msg_no_ts).
  - apply list_elem_of_lookup. exists 0%nat. reflexivity.
  - reflexivity.
  - reflexivity.
Defined.

(** ** [get_user_github_commits] *)

Lemma commit_view_keys c out :
  commit_view c = Ok out → has_keys commit_keys_read c = true.
Proof.
  unfold commit_view, commit_keys_read.
  intros (sha & Hsha & H)%bind_Ok_inv.
  apply bind_Ok_inv in H as (date & Hdate & H).
  apply bind_Ok_inv in H as (message & Hmessage & H).
  apply bind_Ok_inv in H as (files & Hfiles & H).
  apply bind_Ok_inv in H as (added & Hadded & H).
  apply bind_Ok_inv in H as (deleted & Hdeleted & H).
  apply bind_Ok_inv in H as (area & Harea & H).
  apply bind_Ok_inv in H as (diff & Hdiff & _).
  rewrite !(has_keys_cons _ (_ :: _)).
  rewrite (getitem_has_key _ _ _ Hsha), (getitem_has_key _ _ _ Hdate),
    (getitem_has_key _ _ _ Hmessage), (getitem_has_key _ _ _ Hfiles),
    (getitem_has_key _ _ _ Hadded), (getitem_has_key _ _ _ Hdeleted),
    (getitem_has_key _ _ _ Harea), (getitem_has_key _ _ _ Hdiff). done.
Qed.

(** X3: the personal commit extractor fails fast: when the collection
    holds a commit of the user that lacks one of the eight fields the
    extractor reads, the call raises, whatever the other commits are. *)
Theorem X3_own_commit_missing_field_raises (g : gmap string value)
    (cs : list value) (user_id : string) (commit : value) :
  g !! "commits" = Some (VList cs) →
  commit ∈ cs →
  committed_by user_id commit = true →
  has_keys commit_keys_read commit = false →
  raises (get_user_github_commits (VDict g) user_id).
Proof.
  intros Hg Hin Hby Hmiss. unfold get_user_github_commits.
  cbn [Py.get mbind result_bind]. rewrite Hg.
  cbn [from_option id Py.iter mbind result_bind].
  apply (for_each_member_raises _ _ commit
           (github_commits_step_appends user_id) Hin).
  unfold github_commits_step.
  destruct (Py.get commit "author" VNone) as [author|] eqn:Ha; [|done].
  apply get_user_field in Ha as ->. cbn [mbind result_bind].
  fold (committed_by user_id commit). rewrite Hby.
  destruct (commit_view commit) as [out|] eqn:Hv; [|done].
  apply commit_view_keys in Hv. congruence.
Qed.

Lemma X3_own_commit_missing_field_raises_witness :
  raises (get_user_github_commits
            (VDict {[ "commits" := VList [Examples.commit_a1;
                                          Examples.commit_no_date] ]}) "A").
Proof.
  apply (X3_own_commit_missing_field_raises _
           [Examples.commit_a1; Examples.commit_no_date] "A"
           Examples.commit_no_date).
  - reflexivity.
  - apply list_elem_of_lookup. exists 1%nat. reflexivity.
  - reflexivity.
  - reflexivity.
Defined.

(** ** More on [get_user_received_code] *)

(** A scan whose steps emit at most one item each, on a document of the
    expected shape. *)
Lemma scan_channels_emitted step (Q : value * (nat * value) → option value → Prop)
    slack :
  (∀ ch ms, appends (step ch ms)) →
  slack_shaped slack = true →
  Forall (λ p, ∃ o, step p.1 (VList (messages_of p.1)) p.2 []
                      = Ok (option_list o) ∧ Q p o) (positions slack) →
  ∃ emitted,
    scan_channels step slack = Ok (omap id emitted) ∧
    Forall2 Q (positions slack) emitted.
Proof.
  intros Happ Hs Hps.
  destruct (Forall_exists_Forall2 _ _ Hps) as [emitted Hem].
  exists emitted. split.
  - rewrite <- join_option_list. apply scan_channels_Ok; [done..|].
    apply Forall2_fmap_r. eapply Forall2_impl; [exact Hem|]. by intros p o [? _].
  - eapply Forall2_impl; [exact Hem|]. by intros p o [_ ?].
Qed.

Lemma received_step_Ok_exact u ch i msg ys :
  received_step u ch (VList (messages_of ch)) (i, msg) [] = Ok ys →
  ∃ o, ys = option_list o ∧ received_exactly_at u (ch, (i, msg)) o.
Proof.
  unfold received_step.
  intros (cc & ->%get_user_field & H)%bind_Ok_inv.
  fold (contains_code msg) in H.
  destruct (contains_code msg) eqn:Hcc.
  2:{ injection H as <-. exists None. split; [done|].
      intros [[Hc _] _]. cbn [fst snd] in Hc. congruence. }
  apply bind_Ok_inv in H as (x & ->%get_user_field & H).
  fold (authored_by u msg) in H.
  destruct (authored_by u msg) eqn:Hmsg.
  { injection H as <-. exists None. split; [done|].
    intros [[_ Hc] _]. cbn [fst snd] in Hc. congruence. }
  cbn [negb Py.getslice mbind result_bind Py.iter] in H.
  replace (Z.of_nat i + 4)%Z with (Z.of_nat i + 1 + 3)%Z in H by lia.
  rewrite (slice_window _ i 3) in H by lia.
  change (Z.to_nat 3) with 3%nat in H.
  apply received_scan_Ok_inv in H
    as [[-> Hnone]|(k & ack & fact & Hk & Hack & Hfirst & Hfact & ->)].
  - exists None. split; [done|].
    intros [_ (j & ack & (Hlo & Hhi) & Hj & Hack & _)]. cbn [fst snd] in *.
    assert (take 3 (drop (S i) (messages_of ch)) !! (j - S i)%nat = Some ack)
      as Hwin.
    { rewrite lookup_take_lt by lia. rewrite lookup_drop.
      by replace (S i + (j - S i))%nat with j by lia. }
    eapply Forall_lookup_1 in Hnone; [|exact Hwin]. congruence.
  - exists (Some fact). split; [done|]. split; [done|]. cbn [fst snd].
    apply lookup_take_Some in Hk as [Hk Hlt]. rewrite lookup_drop in Hk.
    exists (S i + k)%nat, ack. split; [|done].
    repeat split; [lia|lia|done|done|].
    intros k' m [Hlo Hhi] Hm. apply (Hfirst (k' - S i)%nat m); [lia|].
    rewrite lookup_take_lt by lia. rewrite lookup_drop.
    by replace (S i + (k' - S i))%nat with k' by lia.
Qed.

Lemma received_scan_returns u ch msg fus :
  has_keys ["channel_id"] ch = true →
  has_keys ["user"; "text"] msg = true →
  Forall (λ m, has_keys ["user"; "text"] m = true) fus →
  ∃ ys, received_scan u ch msg fus [] = Ok ys.
Proof.
  intros Hch Hmsg.
  destruct (has_keys_getitem _ _ "channel_id" Hch) as [cid Hcid]; [in_list|].
  destruct (has_keys_getitem _ _ "user" Hmsg) as [from Hfrom]; [in_list|].
  destruct (has_keys_getitem _ _ "text" Hmsg) as [code Hcode]; [in_list|].
  induction 1 as [|fu fus Hfu _ [ys IH]]; [by exists []|].
  destruct (has_keys_getitem _ _ "text" Hfu) as [text Htext]; [in_list|].
  destruct (has_keys_dict _ _ Hfu) as [d ->].
  cbn [received_scan Py.get mbind result_bind].
  destruct (Py.eq_str _ u); [|by exists ys].
  rewrite Hcid, Hfrom, Hcode, Htext. cbn [mbind result_bind]. eauto.
Qed.

Lemma received_step_returns u ch i msg :
  channel_shaped ch = true → message_shaped msg = true →
  ∃ ys, received_step u ch (VList (messages_of ch)) (i, msg) [] = Ok ys.
Proof.
  intros [[Hcid _]%andb_prop Hmsgs]%andb_prop [Hmsg _]%andb_prop.
  destruct (has_keys_dict _ _ Hmsg) as [d ->]. unfold received_step.
  cbn [Py.get mbind result_bind].
  destruct (Py.truthy _); [|by exists []]. destruct (negb _); [|by exists []].
  cbn [Py.getslice Py.iter mbind result_bind].
  apply received_scan_returns; [done..|]. apply slice_Forall.
  apply forallb_Forall in Hmsgs. eapply Forall_impl; [exact Hmsgs|].
  by intros m [? _]%andb_prop.
Qed.

(** X4: on a document of the expected shape the received-code scan
    returns, and it emits a fact at a message exactly when the message is
    a trigger (code flag true, not by the user) with a message of the user
    among the three that follow it; the fact is that of the first such
    message.  Every other message gets nothing. *)
Theorem X4_received_code_exact (slack_data : value) (user_id : string) :
  slack_complete slack_data = true →
  ∃ emitted : list (option value),
    get_user_received_code slack_data user_id = Ok (omap id emitted) ∧
    Forall2 (received_exactly_at user_id) (positions slack_data) emitted.
Proof.
  intros Hs. rewrite get_user_received_code_scan.
  apply scan_channels_emitted;
    [apply received_step_appends|by apply slack_complete_shaped|].
  eapply Forall_impl; [exact (positions_shaped _ Hs)|].
  intros [ch [i msg]] [Hch Hmsg]. cbn [fst snd] in *.
  destruct (received_step_returns user_id ch i msg Hch Hmsg) as [ys Hys].
  destruct (received_step_Ok_exact _ _ _ _ _ Hys) as (o & -> & Ho). eauto.
Qed.

Lemma X4_received_code_exact_witness :
  ∃ emitted : list (option value),
    get_user_received_code Examples.slack_general "A" = Ok (omap id emitted) ∧
    Forall2 (received_exactly_at "A") (positions Examples.slack_general)
      emitted.
Proof. apply X4_received_code_exact. reflexivity. Defined.

Lemma eq_str_refl u : Py.eq_str (VStr u) u = true.
Proof. simpl. by apply bool_decide_eq_true_2. Qed.

Lemma eq_str_true v u : Py.eq_str v u = true → v = VStr u.
Proof.
  destruct v as [| | |s| |]; try done. simpl.
  by intros ->%bool_decide_eq_true.
Qed.

(** What a returning received-code scan emitted a given fact for. *)
Lemma received_fact_origin slack u facts fact :
  get_user_received_code slack u = Ok facts → fact ∈ facts →
  ∃ p, p ∈ positions slack ∧ received_at u p (Some fact).
Proof.
  rewrite get_user_received_code_scan. intros H Hin.
  apply scan_channels_Ok_inv in H as (yss & Hall & ->);
    [|apply received_step_appends|apply received_step_dict].
  destruct (Forall2_join_elem _ _ _ _ Hall Hin) as ([ch [i msg]] & ys & Hp & Hs & Hys).
  exists (ch, (i, msg)). split; [done|]. cbn [fst snd] in Hs.
  apply received_step_Ok_inv in Hs as (o & -> & Ho).
  destruct o as [f|]; [|by apply elem_of_nil in Hys].
  by apply list_elem_of_singleton in Hys as ->.
Qed.

(** X5: the received-code scan never reports code of the user: whenever
    it returns, no fact has the user as its [from_user]. *)
Theorem X5_received_code_not_own (slack_data : value) (user_id : string)
    (facts : list value) (fact : value) :
  get_user_received_code slack_data user_id = Ok facts →
  fact ∈ facts →
  field "from_user" fact ≠ VStr user_id.
Proof.
  intros H Hin.
  destruct (received_fact_origin _ _ _ _ H Hin) as ([ch [i msg]] & _ & Hp).
  destruct (Hp fact eq_refl) as ([_ Hby] & j & ack & _ & Hfact).
  cbn [fst snd] in *.
  destruct Hfact as (cid & from & code & text & _ & Hfrom & _ & _ & ->).
  change (field "from_user" _) with from.
  apply getitem_field in Hfrom. unfold authored_by in Hby. rewrite Hfrom in Hby.
  intros ->. by rewrite eq_str_refl in Hby.
Qed.

Lemma X5_received_code_not_own_witness :
  get_user_received_code Examples.slack_general "A"
    = Ok [Examples.received_general] ∧
  field "from_user" Examples.received_general ≠ VStr "A".
Proof.
  split; [vm_compute; reflexivity|].
  apply (X5_received_code_not_own Examples.slack_general "A"
           [Examples.received_general]).
  - vm_compute. reflexivity.
  - apply list_elem_of_singleton. reflexivity.
Defined.

Lemma Forall2_join_at {A B} (R : A → list B → Prop) (l : list A)
    (yss : list (list B)) (x : A) :
  Forall2 R l yss → x ∈ l → ∃ ys, R x ys ∧ ∀ y, y ∈ ys → y ∈ mjoin yss.
Proof.
  intros Hall [i Hi]%list_elem_of_lookup.
  destruct (Forall2_lookup_l _ _ _ _ _ Hall Hi) as (ys & Hys & HR).
  exists ys. split; [done|]. intros y Hy. apply list_elem_of_join.
  exists ys. split; [done|]. apply list_elem_of_lookup. eauto.
Qed.

(** X6: the two scans mirror each other.  When the received-code scan
    for [receiver] reports code from [sharer], the kudos scan for
    [sharer] over the same document with the window 3, if it returns,
    holds the acknowledgment fact from [sharer] to [receiver] with the
    same channel, snippet and acknowledging text. *)
Theorem X6_received_code_mirrored_in_kudos (slack_data github_data : value)
    (sharer receiver : string) (facts kudos : list value) (fact : value) :
  get_user_received_code slack_data receiver = Ok facts →
  fact ∈ facts →
  field "from_user" fact = VStr sharer →
  extract_peer_kudos slack_data github_data sharer 3 = Ok kudos →
  mirrored_ack sharer receiver fact ∈ kudos.
Proof.
  intros Hr Hin Hfrom Hk.
  destruct (received_fact_origin _ _ _ _ Hr Hin) as ([ch [i msg]] & Hp & Hat).
  destruct (Hat fact eq_refl)
    as ([Hcc Hby] & j & ack & ((Hlo & Hhi) & Hj & Hack & _) & Hfact).
  cbn [fst snd] in *.
  destruct Hfact as (cid & from & code & text & Hcid & Huser & Hcode & Htext & ->).
  change (field "from_user" _) with from in Hfrom. subst from.
  apply extract_peer_kudos_Ok_inv in Hk as (yss & Hall & ->).
  destruct (Forall2_join_at _ _ _ _ Hall Hp) as (ys & Hys & Hsub).
  apply Hsub. clear Hsub Hall Hp Hat Hr Hin.
  unfold kudos_at, qualifies in Hys. cbn [fst snd] in Hys.
  assert (authored_by sharer msg = true) as Hsharer.
  { unfold authored_by. rewrite (getitem_field _ _ _ Huser). apply eq_str_refl. }
  rewrite Hsharer, Hcc in Hys.
  destruct Hys as (snippet & ack_lists & usage_lists & Hsn & Hacks & _ & ->).
  rewrite Hcode in Hsn. injection Hsn as <-.
  rewrite (slice_window _ i 3) in Hacks by lia.
  change (Z.to_nat 3) with 3%nat in Hacks.
  assert (take 3 (drop (S i) (messages_of ch)) !! (j - S i)%nat = Some ack)
    as Hwin.
  { rewrite lookup_take_lt by lia. rewrite lookup_drop.
    by replace (S i + (j - S i))%nat with j by lia. }
  destruct (Forall2_lookup_l _ _ _ _ _ Hacks Hwin) as (zs & Hzs & Hat).
  apply elem_of_app. left. apply list_elem_of_join. exists zs.
  split; [|apply list_elem_of_lookup; eauto].
  destruct Hat as (author & Hauthor & Hz).
  assert (author = VStr receiver) as ->.
  { apply getitem_field in Hauthor. unfold authored_by in Hack.
    rewrite Hauthor in Hack. by apply eq_str_true. }
  assert (Py.eq_str (VStr receiver) sharer = false) as Hne.
  { unfold authored_by in Hby. rewrite (getitem_field _ _ _ Huser) in Hby.
    simpl in *. apply bool_decide_eq_false in Hby.
    apply bool_decide_eq_false. congruence. }
  rewrite Hne in Hz.
  destruct Hz as (f & (to & cid' & text' & Hto & Hcid' & Htext' & ->) & ->).
  rewrite Hauthor in Hto. rewrite Hcid in Hcid'. rewrite Htext in Htext'.
  injection Hto as <-. injection Hcid' as <-. injection Htext' as <-.
  apply list_elem_of_singleton. reflexivity.
Qed.

Lemma X6_received_code_mirrored_in_kudos_witness :
  mirrored_ack "B" "A" Examples.received_general ∈
  [VDict {[ "from_user" := VStr "B"; "to_user" := VStr "A";
            "channel" := VStr "general";
            "code_snippet" := VStr "```for x in y```";
            "ack_text" := VStr "nice, thanks"; "type" := VStr "slack_ack" ]}].
Proof.
  apply (X6_received_code_mirrored_in_kudos Examples.slack_general
           Examples.github_ab "B" "A" [Examples.received_general]).
  - vm_compute. reflexivity.
  - apply list_elem_of_singleton. reflexivity.
  - reflexivity.
  - vm_compute. reflexivity.
Defined.

(** ** Documents put together *)

Lemma scan_channels_doc step g chs :
  scan_channels step (slack_doc g chs) = Py.for_each chs (scan_channel step) [].
Proof.
  unfold scan_channels, slack_doc. cbn [Py.get mbind result_bind].
  by rewrite lookup_insert_eq.
Qed.

Lemma scan_channels_concat step g chs1 chs2 :
  (∀ ch ms, appends (step ch ms)) →
  scan_channels step (slack_doc g (chs1 ++ chs2)) =
  then_append (scan_channels step (slack_doc g chs1))
              (scan_channels step (slack_doc g chs2)).
Proof.
  intros Happ. rewrite !scan_channels_doc.
  apply for_each_concat, scan_channel_appends, Happ.
Qed.

(** X7: the three scans of the chat document work channel by channel:
    the result for a document whose channels are [chs1 ++ chs2] is the
    result for [chs1] followed by the result for [chs2], and the call
    raises the exception of the first part that raises. *)
Theorem X7_scans_go_channel_by_channel (g : gmap string value)
    (chs1 chs2 : list value) (github_data : value) (user_id : string)
    (w : Z) :
  get_user_slack_messages (slack_doc g (chs1 ++ chs2)) user_id =
    then_append (get_user_slack_messages (slack_doc g chs1) user_id)
                (get_user_slack_messages (slack_doc g chs2) user_id) ∧
  get_user_received_code (slack_doc g (chs1 ++ chs2)) user_id =
    then_append (get_user_received_code (slack_doc g chs1) user_id)
                (get_user_received_code (slack_doc g chs2) user_id) ∧
  extract_peer_kudos (slack_doc g (chs1 ++ chs2)) github_data user_id w =
    then_append (extract_peer_kudos (slack_doc g chs1) github_data user_id w)
                (extract_peer_kudos (slack_doc g chs2) github_data user_id w).
Proof.
  split; [|split].
  - rewrite !get_user_slack_messages_scan. apply scan_channels_concat.
    intros ch _ [i msg]. apply slack_messages_step_appends.
  - rewrite !get_user_received_code_scan. apply scan_channels_concat.
    apply received_step_appends.
  - rewrite !extract_peer_kudos_scan. apply scan_channels_concat.
    apply kudos_step_appends.
Qed.

Lemma scan_channel_empty step ch acc :
  channel_empty ch = true → scan_channel step ch acc = Ok acc.
Proof.
  intros [Hch Hnil%bool_decide_eq_true]%andb_prop. unfold scan_channel.
  rewrite (absent_or_list_get _ _ Hch). fold (messages_of ch). by rewrite Hnil.
Qed.

Lemma scan_channels_skip_empty step g chs1 ch chs2 :
  channel_empty ch = true →
  scan_channels step (slack_doc g (chs1 ++ ch :: chs2)) =
  scan_channels step (slack_doc g (chs1 ++ chs2)).
Proof.
  intros Hch. rewrite !scan_channels_doc, !for_each_app.
  destruct (Py.for_each chs1 _ []) as [acc|]; [|done]. cbn [mbind result_bind].
  cbn [Py.for_each]. by rewrite (scan_channel_empty _ _ _ Hch).
Qed.

Lemma scan_channels_absent step (g : gmap string value) :
  g !! "channels" = None → scan_channels step (VDict g) = Ok [].
Proof.
  intros Hg. unfold scan_channels. cbn [Py.get mbind result_bind].
  by rewrite Hg.
Qed.

(** X8: empty input is no error for the three scans of the chat
    document.  A document without a [channels] key gives the empty
    result; and a channel without messages (no [messages] key, or the
    empty list) is passed over wherever it stands among the channels,
    even when it has no [channel_id]. *)
Theorem X8_empty_channels_are_skipped (g : gmap string value)
    (chs1 chs2 : list value) (channel github_data : value)
    (user_id : string) (w : Z) :
  channel_empty channel = true →
  (g !! "channels" = None →
   get_user_slack_messages (VDict g) user_id = Ok [] ∧
   get_user_received_code (VDict g) user_id = Ok [] ∧
   extract_peer_kudos (VDict g) github_data user_id w = Ok []) ∧
  get_user_slack_messages (slack_doc g (chs1 ++ channel :: chs2)) user_id =
    get_user_slack_messages (slack_doc g (chs1 ++ chs2)) user_id ∧
  get_user_received_code (slack_doc g (chs1 ++ channel :: chs2)) user_id =
    get_user_received_code (slack_doc g (chs1 ++ chs2)) user_id ∧
  extract_peer_kudos (slack_doc g (chs1 ++ channel :: chs2)) github_data
      user_id w =
    extract_peer_kudos (slack_doc g (chs1 ++ chs2)) github_data user_id w.
Proof.
  intros Hch.
  rewrite !get_user_slack_messages_scan, !get_user_received_code_scan,
    !extract_peer_kudos_scan.
  split; [|by rewrite !(scan_channels_skip_empty _ _ _ _ _ Hch)].
  intros Hg. by rewrite !(scan_channels_absent _ _ Hg).
Qed.

Lemma X8_empty_channels_are_skipped_witness :
  get_user_received_code
    (slack_doc ∅ ([] ++ VDict ∅ :: channels_of Examples.slack_general)) "A" =
  get_user_received_code
    (slack_doc ∅ ([] ++ channels_of Examples.slack_general)) "A".
Proof.
  apply (X8_empty_channels_are_skipped ∅ [] _ (VDict ∅) Examples.github_ab
           "A" 3).
  reflexivity.
Defined.

(** X9: the transcript extractor works meeting by meeting and the
    personal commit extractor commit by commit: the result for two lists
    put one after the other is the result for the first followed by the
    result for the second, and the call raises the exception of the first
    part that raises. *)
Theorem X9_meetings_and_commits_one_by_one (g : gmap string value)
    (ms1 ms2 cs1 cs2 : list value) (user_id : string) (radius : Z) :
  get_user_meeting_transcripts_with_context (VList (ms1 ++ ms2)) user_id
      radius =
    then_append
      (get_user_meeting_transcripts_with_context (VList ms1) user_id radius)
      (get_user_meeting_transcripts_with_context (VList ms2) user_id radius) ∧
  get_user_github_commits (github_doc g (cs1 ++ cs2)) user_id =
    then_append (get_user_github_commits (github_doc g cs1) user_id)
                (get_user_github_commits (github_doc g cs2) user_id).
Proof.
  split.
  - unfold get_user_meeting_transcripts_with_context.
    cbn [Py.iter mbind result_bind].
    apply for_each_concat, transcripts_step_appends.
  - unfold get_user_github_commits, github_doc.
    cbn [Py.get mbind result_bind]. rewrite !lookup_insert_eq.
    cbn [from_option id Py.iter mbind result_bind].
    apply for_each_concat, github_commits_step_appends.
Qed.

(** ** More on [get_user_meeting_transcripts_with_context] *)

Lemma bind_raises' {A B} (m : result A) (k : A → result B) :
  raises m → raises (m ≫= k).
Proof. by destruct m. Qed.

Lemma for_each_Raise_inv {A St} (body : A → St → result St) (l : list A)
    (s : St) (e : exn) :
  Py.for_each l body s = Raise e → ∃ x s', x ∈ l ∧ body x s' = Raise e.
Proof.
  revert s. induction l as [|x l IH]; intros s; simpl; [done|].
  destruct (body x s) as [s'|e'] eqn:E; simpl.
  - intros (y & s'' & Hy & H)%IH. exists y, s''. split; [by right|done].
  - intros [= ->]. exists x, s. split; [by left|done].
Qed.

Lemma for_each_Ok_each {A St} (body : A → St → result St) (l : list A)
    (s s' : St) (x : A) :
  Py.for_each l body s = Ok s' → x ∈ l → ∃ s1 s2, body x s1 = Ok s2.
Proof.
  revert s. induction l as [|y l IH]; intros s H Hin; [by apply elem_of_nil in Hin|].
  simpl in H. apply bind_Ok_inv in H as (s1 & Hy & H).
  apply elem_of_cons in Hin as [->|Hin]; [eauto|]. by eapply IH.
Qed.

Lemma for_each_invariant {A St} (body : A → St → result St) (I : St → Prop)
    (l : list A) (s s' : St) :
  (∀ x s1 s2, body x s1 = Ok s2 → I s1 → I s2) →
  I s → Py.for_each l body s = Ok s' → I s'.
Proof.
  intros Hstep. revert s. induction l as [|x l IH]; intros s Hs; simpl.
  - by intros [= <-].
  - intros (s1 & Hx & H)%bind_Ok_inv. eapply IH; [|exact H]. eauto.
Qed.

(** The indices the collection loop adds are indices of the transcript. *)
Lemma included_step_bounds u r transcript il s1 s2 :
  included_step u r transcript il s1 = Ok s2 →
  (∀ j, j ∈ s1 → ∃ n, Py.len transcript = Ok n ∧ (0 ≤ j < n)%Z) →
  ∀ j, j ∈ s2 → ∃ n, Py.len transcript = Ok n ∧ (0 ≤ j < n)%Z.
Proof.
  destruct il as [idx line]. unfold included_step.
  intros (x & _ & H)%bind_Ok_inv Hs1 j Hj.
  destruct (Py.eq_str x u); [|injection H as <-; by apply Hs1].
  apply bind_Ok_inv in H as (n & Hn & [= <-]).
  apply elem_of_add_range in Hj as [Hj|Hj]; [by apply Hs1|].
  apply elem_of_py_range in Hj. exists n. split; [done|lia].
Qed.

Lemma included_step_line_dict u r transcript il s1 s2 :
  included_step u r transcript il s1 = Ok s2 → is_dict il.2 = true.
Proof.
  destruct il as [idx line]. unfold included_step.
  intros (x & Hx%get_dict & _)%bind_Ok_inv. done.
Qed.

Lemma flow_step_not_IndexError (l : list value) (j : Z) acc :
  (0 ≤ j < Z.of_nat (length l))%Z →
  flow_step (VList l) j acc ≠ Raise IndexError.
Proof.
  intros Hj.
  destruct (lookup_lt_is_Some_2 l (Z.to_nat j)) as [line Hline]; [lia|].
  unfold flow_step. rewrite (index_list _ _ _ (proj1 Hj) Hline).
  cbn [mbind result_bind].
  destruct line as [| | | | |d]; try done. cbn [Py.getitem].
  destruct (d !! "user"); [|done]. cbn [mbind result_bind].
  by destruct (d !! "text").
Qed.

Lemma transcripts_step_not_IndexError u r meeting acc :
  transcripts_step u r meeting acc ≠ Raise IndexError.
Proof.
  unfold transcripts_step.
  destruct meeting as [| | | | |d]; try done. cbn [Py.get mbind result_bind].
  generalize (default (VList []) (d !! "transcript")). intros transcript.
  destruct (Py.iter transcript) as [lines|e] eqn:Hiter;
    [|destruct transcript; try done; by injection Hiter as <-].
  cbn [mbind result_bind].
  destruct (Py.for_each (Py.enumerate lines) _ ∅) as [s|e] eqn:Hloop.
  2:{ cbn [mbind result_bind]. intros [= ->].
      apply for_each_Raise_inv in Hloop as ([idx line] & s' & _ & H).
      unfold included_step in H.
      destruct line; try done. cbn [Py.get mbind result_bind] in H.
      destruct (Py.eq_str _ u); [|done]. by destruct transcript. }
  cbn [mbind result_bind]. case_bool_decide as Hs; cbn [negb]; [done|].
  destruct (Py.for_each (py_sorted s) _ []) as [flow|e] eqn:Hflow; [done|].
  cbn [mbind result_bind]. intros [= ->].
  apply for_each_Raise_inv in Hflow as (j & acc' & Hj%py_sorted_elem & H).
  assert (lines = list_of transcript) as Hlines.
  { apply iter_dicts; [done|]. apply enumerate_dicts, Forall_forall.
    intros il Hil. destruct (for_each_Ok_each _ _ _ _ _ Hloop Hil)
      as (s1 & s2 & Hstep).
    by eapply included_step_line_dict. }
  assert (∃ n, Py.len transcript = Ok n ∧ (0 ≤ j < n)%Z) as (n & Hn & Hbound).
  { clear H. revert j Hj.
    eapply (for_each_invariant _
              (λ s, ∀ j, j ∈ s → ∃ n, Py.len transcript = Ok n ∧ (0 ≤ j < n)%Z));
      [| |exact Hloop].
    - intros il s1 s2. apply included_step_bounds.
    - intros j Hj. by apply elem_of_empty in Hj. }
  destruct transcript as [| | |str|l|dd]; try done.
  - subst lines. cbn [list_of Py.enumerate imap Py.for_each] in Hloop.
    injection Hloop as <-. by apply elem_of_empty in Hj.
  - injection Hn as <-. by apply (flow_step_not_IndexError l j acc').
Qed.

(** X10: the transcript extractor never reads past the ends of a
    transcript: whatever the document, the user and the radius, the call
    does not raise [IndexError]. *)
Theorem X10_context_window_stays_in_bounds (transcripts_data : value)
    (user_id : string) (radius : Z) :
  get_user_meeting_transcripts_with_context transcripts_data user_id radius
  ≠ Raise IndexError.
Proof.
  unfold get_user_meeting_transcripts_with_context.
  destruct (Py.iter transcripts_data) as [meetings|e] eqn:Hiter;
    [|destruct transcripts_data; try done; by injection Hiter as <-].
  cbn [mbind result_bind].
  intros (m & acc & _ & H)%for_each_Raise_inv.
  by apply transcripts_step_not_IndexError in H.
Qed.

Lemma transcripts_step_negative u r meeting :
  meeting_scannable meeting = true → (r < 0)%Z →
  transcripts_step u r meeting [] = Ok [].
Proof.
  intros [Hm Hlines]%andb_prop Hr. unfold transcripts_step.
  pose proof (absent_or_list_get _ _ Hm) as Hget.
  fold (lines_of meeting) in Hget.
  destruct meeting as [| | | | |d]; try done.
  cbn [Py.get mbind result_bind] in Hget |- *. injection Hget as ->.
  cbn [Py.iter mbind result_bind].
  destruct (included_indices_Ok u r (lines_of (VDict d)) Hlines)
    as (s & -> & Hs).
  cbn [mbind result_bind].
  assert (s = ∅) as ->.
  { apply set_eq. intros j. rewrite Hs. split; [|set_solver].
    intros (_ & i & _ & Hj). lia. }
  by rewrite bool_decide_eq_true_2.
Qed.

(** X11: with a negative radius the transcript extractor finds nothing:
    on meetings whose transcript lines are dicts it returns the empty
    list, whether the user speaks in them or not. *)
Theorem X11_negative_radius_gives_nothing (meetings : list value)
    (user_id : string) (radius : Z) :
  forallb meeting_scannable meetings = true →
  (radius < 0)%Z →
  get_user_meeting_transcripts_with_context (VList meetings) user_id radius
  = Ok [].
Proof.
  intros Hms Hr. unfold get_user_meeting_transcripts_with_context.
  cbn [Py.iter mbind result_bind].
  induction meetings as [|m ms IH]; [done|].
  simpl in Hms. apply andb_prop in Hms as [Hm Hms].
  rewrite (for_each_cons _ (transcripts_step_appends _ _)).
  by rewrite (transcripts_step_negative _ _ _ Hm Hr), (IH Hms).
Qed.

Lemma X11_negative_radius_gives_nothing_witness :
  get_user_meeting_transcripts_with_context
    (VList [Examples.meeting_five; Examples.meeting_gap]) "A" (-1)
  = Ok [].
Proof. apply X11_negative_radius_gives_nothing; [reflexivity|lia]. Defined.

Lemma seqZ_ascending (m : Z) (k : nat) :
  StronglySorted Z.lt (seqZ m (Z.of_nat k)).
Proof.
  revert m. induction k as [|k IH]; intros m; [constructor|].
  rewrite seqZ_cons by lia.
  replace (Z.pred (Z.of_nat (S k))) with (Z.of_nat k) by lia.
  constructor; [apply IH|]. apply Forall_forall.
  intros j Hj%elem_of_seqZ. lia.
Qed.

(** A strictly ascending list is determined by its elements. *)
Lemma ascending_unique (l1 l2 : list Z) :
  StronglySorted Z.lt l1 → StronglySorted Z.lt l2 →
  NoDup l1 → NoDup l2 → (∀ j, j ∈ l1 ↔ j ∈ l2) → l1 = l2.
Proof.
  intros H1 H2 Hn1 Hn2 Hel.
  apply (StronglySorted_unique_strong Z.lt); [|done..|].
  - intros x1 x2 _ _ ? ?. lia.
  - by apply NoDup_Permutation.
Qed.

Lemma in_context_whole u r lines j :
  (∃ i, speaks_at u lines i) →
  (Z.of_nat (length lines) - 1 ≤ r)%Z →
  in_context u r lines j ↔ j ∈ seqZ 0 (Z.of_nat (length lines)).
Proof.
  intros (i & Hi) Hr. rewrite elem_of_seqZ. unfold in_context. split.
  - intros [Hj _]. lia.
  - intros Hj. split; [lia|]. exists i. split; [done|].
    destruct Hi as (line & Hline%lookup_lt_Some & _). lia.
Qed.

(** X12: a radius that reaches from every turn to both ends of the
    transcript gives the whole transcript: on meetings of the expected
    shape the extractor returns, and for a meeting in which the user
    speaks and whose transcript has at most [radius + 1] lines the flow
    holds every line of the transcript, once and in order. *)
Theorem X12_wide_radius_gives_whole_transcript (meetings : list value)
    (user_id : string) (radius : Z) :
  forallb meeting_shaped meetings = true →
  ∃ emitted : list (option value),
    get_user_meeting_transcripts_with_context (VList meetings) user_id radius
      = Ok (omap id emitted) ∧
    Forall2 (whole_flow_at user_id radius) meetings emitted.
Proof.
  intros Hms. unfold get_user_meeting_transcripts_with_context.
  cbn [Py.iter mbind result_bind].
  induction meetings as [|m ms IH].
  - exists []. by split; [|constructor].
  - simpl in Hms. apply andb_prop in Hms as [Hm Hms].
    destruct (IH Hms) as (os & Hos & Hall).
    destruct (transcripts_step_Ok user_id radius m Hm) as (o & Ho & Hflow).
    exists (o :: os). split.
    + rewrite (for_each_cons _ (transcripts_step_appends _ _)), Ho, Hos.
      cbn [mbind result_bind]. by destruct o.
    + constructor; [|done]. unfold whole_flow_at. cbv zeta.
      set (lines := lines_of m) in *. intros Hspeaks Hr.
      pose proof (λ j, in_context_whole user_id radius lines j Hspeaks Hr)
        as Hwhole.
      destruct Hflow as [[Hnone _]|(_ & idxs & outs & -> & Hsorted & Hnd & Hin & Houts)].
      * exfalso. apply Hnone. destruct Hspeaks as [i Hi].
        exists (Z.of_nat i). apply Hwhole, elem_of_seqZ.
        destruct Hi as (line & Hline%lookup_lt_Some & _). lia.
      * exists outs. split; [done|].
        assert (idxs = seqZ 0 (Z.of_nat (length lines))) as <-; [|done].
        apply ascending_unique;
          [done|apply seqZ_ascending|done|apply NoDup_seqZ|].
        intros j. by rewrite Hin, Hwhole.
Qed.

Lemma X12_wide_radius_gives_whole_transcript_witness :
  ∃ emitted : list (option value),
    get_user_meeting_transcripts_with_context
      (VList [Examples.meeting_five; Examples.meeting_silent]) "A" 4
      = Ok (omap id emitted) ∧
    Forall2 (whole_flow_at "A" 4)
      [Examples.meeting_five; Examples.meeting_silent] emitted.
Proof. apply X12_wide_radius_gives_whole_transcript. reflexivity. Defined.

(** X13: the transcript extractor fails fast on the lines it copies:
    when a line within the radius of a turn of the user has no [user] or
    no [text], the call raises, whatever the other meetings are. *)
Theorem X13_line_in_context_missing_field_raises (meetings : list value)
    (user_id : string) (radius : Z) (meeting line : value) (j : Z) :
  meeting ∈ meetings →
  meeting_scannable meeting = true →
  in_context user_id radius (lines_of meeting) j →
  lines_of meeting !! Z.to_nat j = Some line →
  has_keys ["user"; "text"] line = false →
  raises
    (get_user_meeting_transcripts_with_context (VList meetings) user_id
       radius).
Proof.
  intros Hin [Hm Hlines]%andb_prop Hj Hline Hmiss.
  unfold get_user_meeting_transcripts_with_context.
  cbn [Py.iter mbind result_bind].
  apply (for_each_member_raises _ _ meeting
           (transcripts_step_appends user_id radius) Hin).
  unfold transcripts_step.
  pose proof (absent_or_list_get _ _ Hm) as Hget.
  fold (lines_of meeting) in Hget.
  destruct meeting as [| | | | |d]; try done.
  cbn [Py.get mbind result_bind] in Hget |- *. injection Hget as ->.
  cbn [Py.iter mbind result_bind].
  destruct (included_indices_Ok user_id radius (lines_of (VDict d)) Hlines)
    as (s & -> & Hs).
  cbn [mbind result_bind]. apply Hs in Hj as Hjs.
  rewrite bool_decide_eq_false_2 by set_solver. cbn [negb].
  apply bind_raises'.
  apply (for_each_member_raises _ _ j (flow_step_appends _));
    [by apply py_sorted_elem|].
  unfold flow_step. rewrite (index_list _ _ _ (proj1 (proj1 Hj)) Hline).
  cbn [mbind result_bind].
  apply forallb_Forall in Hlines. eapply Forall_lookup_1 in Hlines; [|exact Hline].
  destruct line as [| | | | |dl]; try done. cbn [Py.getitem].
  simpl in Hmiss. rewrite andb_true_r in Hmiss.
  destruct (dl !! "user"); [|done]. cbn [mbind result_bind].
  destruct (dl !! "text"); [|done].
  rewrite !bool_decide_eq_true_2 in Hmiss by eauto. done.
Qed.

Lemma X13_line_in_context_missing_field_raises_witness :
  raises
    (get_user_meeting_transcripts_with_context
       (VList [Examples.meeting_five; Examples.meeting_gap]) "A" 1).
Proof.
  apply (X13_line_in_context_missing_field_raises _ "A" 1
           Examples.meeting_gap Examples.line_no_text 1).
  - apply list_elem_of_lookup. exists 1%nat. reflexivity.
  - reflexivity.
  - change (lines_of Examples.meeting_gap)
      with [Examples.turn "A" "hello"; Examples.line_no_text].
    split; [simpl; lia|]. exists 0%nat. split; [|lia].
    exists (Examples.turn "A" "hello"). split; reflexivity.
  - reflexivity.
  - reflexivity.
Defined.

(** ** More on [extract_peer_kudos] *)

Lemma ack_at_elem_other u ch snippet fu ys fact :
  ack_at u ch snippet fu ys → fact ∈ ys →
  authored_by u fu = false ∧ ack_fact u ch snippet fu fact.
Proof.
  intros (author & Hauthor & H) Hin. unfold authored_by.
  rewrite (getitem_field _ _ _ Hauthor). destruct (Py.eq_str author u).
  - subst ys. by apply elem_of_nil in Hin.
  - destruct H as (f & Hf & ->). by apply list_elem_of_singleton in Hin as ->.
Qed.

(** Where a fact of a returning kudos scan comes from. *)
Lemma kudos_fact_origin slack gh u w ks fact :
  extract_peer_kudos slack gh u w = Ok ks → fact ∈ ks →
  ∃ p snippet,
    p ∈ positions slack ∧ qualifies u p.2.2 = true ∧
    Py.getitem p.2.2 "text" = Ok snippet ∧
    kudos_origin u w gh p snippet fact.
Proof.
  intros (yss & Hall & ->)%extract_peer_kudos_Ok_inv Hin.
  destruct (Forall2_join_elem _ _ _ _ Hall Hin) as (p & ys & Hp & Hat & Hys).
  unfold kudos_at in Hat. destruct (qualifies u p.2.2) eqn:Hq;
    [|subst ys; by apply elem_of_nil in Hys].
  destruct Hat as (snippet & ack_lists & usage_lists & Hsn & Hacks & Hus & ->).
  exists p, snippet. repeat split; [done..|].
  apply elem_of_app in Hys as [Hys|Hys].
  - left. destruct (Forall2_join_elem _ _ _ _ Hacks Hys) as (fu & zs & Hfu & Hz & Hf).
    exists fu. split; [done|]. by eapply ack_at_elem_other.
  - right. destruct (Forall2_join_elem _ _ _ _ Hus Hys) as (c & zs & Hc & Hu & Hz).
    destruct (usage_at_elem _ _ _ _ _ Hu Hz) as (Hby & s & t & -> & _ & _ & Hf).
    exists c. by repeat split.
Qed.

(** X14: every fact of the kudos scan goes from the user to someone
    else: whenever the scan returns, each fact has the user as its
    [from_user], a [to_user] that is not the user, and the type
    [slack_ack] or [github_usage]. *)
Theorem X14_kudos_go_to_others (slack_data github_data : value)
    (user_id : string) (w : Z) (facts : list value) (fact : value) :
  extract_peer_kudos slack_data github_data user_id w = Ok facts →
  fact ∈ facts →
  field "from_user" fact = VStr user_id ∧
  field "to_user" fact ≠ VStr user_id ∧
  (has_type "slack_ack" fact ∨ has_type "github_usage" fact).
Proof.
  intros H Hin.
  destruct (kudos_fact_origin _ _ _ _ _ _ H Hin)
    as (p & snippet & _ & _ & _ & [(fu & _ & Hby & Hf)|(c & _ & Hby & Hf)]).
  - destruct Hf as (to & cid & text & Hto & _ & _ & ->).
    split; [done|]. split; [|by left].
    change (field "to_user" _) with to. intros ->.
    unfold authored_by in Hby. rewrite (getitem_field _ _ _ Hto) in Hby.
    by rewrite eq_str_refl in Hby.
  - destruct Hf as (to & sha & Hto & _ & ->).
    split; [done|]. split; [|by right].
    change (field "to_user" _) with to. intros ->.
    unfold committed_by in Hby. rewrite (getitem_field _ _ _ Hto) in Hby.
    by rewrite eq_str_refl in Hby.
Qed.

Lemma X14_kudos_go_to_others_witness :
  field "from_user" Examples.usage_ab = VStr "A" ∧
  field "to_user" Examples.usage_ab ≠ VStr "A" ∧
  (has_type "slack_ack" Examples.usage_ab ∨
   has_type "github_usage" Examples.usage_ab).
Proof.
  apply (X14_kudos_go_to_others Examples.slack_ab Examples.github_ab "A" 3
           [Examples.usage_ab]).
  - vm_compute. reflexivity.
  - apply list_elem_of_singleton. reflexivity.
Defined.

(** X15: each pass of the kudos scan can be switched off by its input.
    Whenever the scan returns, a window of 0 leaves only facts of the
    commit pass, and a commit collection without commits leaves only
    acknowledgment facts. *)
Theorem X15_kudos_pass_switched_off (slack_data github_data : value)
    (user_id : string) (w : Z) (facts : list value) :
  extract_peer_kudos slack_data github_data user_id w = Ok facts →
  (w = 0%Z → Forall (has_type "github_usage") facts) ∧
  (commits_of github_data = [] → Forall (has_type "slack_ack") facts).
Proof.
  intros H. split; intros Hoff; apply Forall_forall; intros fact Hin;
    destruct (kudos_fact_origin _ _ _ _ _ _ H Hin)
      as (p & snippet & _ & _ & _ & [(fu & Hfu & _ & Hf)|(c & Hc & _ & Hf)]).
  - subst w. rewrite slice_window in Hfu by lia. by apply elem_of_nil in Hfu.
  - by eapply usage_fact_type.
  - by eapply ack_fact_type.
  - rewrite Hoff in Hc. by apply elem_of_nil in Hc.
Qed.

Lemma X15_kudos_pass_switched_off_witness :
  (0%Z = 0%Z → Forall (has_type "github_usage") [Examples.usage_ab]) ∧
  (commits_of Examples.github_ab = [] →
   Forall (has_type "slack_ack") [Examples.usage_ab]).
Proof.
  apply (X15_kudos_pass_switched_off Examples.slack_ab Examples.github_ab
           "A" 0).
  vm_compute. reflexivity.
Defined.

(** A negative upper bound of a slice counts from the end. *)
Lemma slice_negative_near {A} (l : list A) (i : nat) (w : Z) :
  (- (Z.of_nat i + 1) ≤ w < 0)%Z →
  Py.slice l (Z.of_nat i + 1) (Z.of_nat i + 1 + w) = [].
Proof.
  intros Hw. unfold Py.slice, Py.clamp. cbv zeta.
  destruct (Z.ltb_spec (Z.of_nat i + 1) 0) as [?|_]; [lia|].
  destruct (Z.ltb_spec (Z.of_nat i + 1 + w) 0) as [?|_]; [lia|].
  set (n := Z.of_nat (length l)).
  assert (Z.to_nat (Z.min (Z.of_nat i + 1 + w) n - Z.min (Z.of_nat i + 1) n)
          = 0%nat) as -> by lia.
  done.
Qed.

Lemma slice_negative_far {A} (l : list A) (i : nat) (w : Z) :
  (i < length l)%nat → (w < - (Z.of_nat i + 1))%Z →
  Py.slice l (Z.of_nat i + 1) (Z.of_nat i + 1 + w) =
  take (Z.to_nat (Z.of_nat (length l) + w)) (drop (S i) l).
Proof.
  intros Hi Hw. unfold Py.slice, Py.clamp. cbv zeta.
  destruct (Z.ltb_spec (Z.of_nat i + 1) 0) as [?|_]; [lia|].
  destruct (Z.ltb_spec (Z.of_nat i + 1 + w) 0) as [_|?]; [|lia].
  set (n := Z.of_nat (length l)).
  assert (Z.to_nat (Z.min (Z.of_nat i + 1) n) = S i) as -> by lia.
  assert (Z.to_nat (Z.max (Z.of_nat i + 1 + w + n) 0 - Z.min (Z.of_nat i + 1) n)
          = Z.to_nat (n + w)) as -> by lia.
  done.
Qed.

Lemma positions_indexed slack :
  Forall (λ p, messages_of p.1 !! p.2.1 = Some p.2.2) (positions slack).
Proof.
  unfold positions. induction (channels_of slack) as [|ch chs IH];
    [constructor|].
  cbn [mbind list_bind]. apply Forall_app. split; [|exact IH].
  apply Forall_fmap, Forall_forall. intros [i msg] Hin. cbn [fst snd].
  unfold Py.enumerate in Hin. apply list_elem_of_lookup in Hin as [j Hj].
  rewrite list_lookup_imap in Hj.
  destruct (messages_of ch !! j) as [m|] eqn:E; [|done].
  by injection Hj as <- <-.
Qed.

Lemma Forall2_Forall_l {A B} (P : A → Prop) (R : A → B → Prop) l k :
  Forall P l → Forall2 R l k → Forall2 (λ x y, P x ∧ R x y) l k.
Proof.
  intros HP HR. revert HP. induction HR; intros HP; [constructor|].
  apply Forall_cons in HP as [? ?]. constructor; auto.
Qed.

(** X16: a negative window does not switch the acknowledgment pass off;
    its slice is read from the end of the channel.  Whenever the scan
    returns under a window [w < 0], a qualifying message at index [i]
    gets no acknowledgment fact when [w ≥ -(i + 1)], and otherwise one
    for every message not by the user among the first [length + w]
    messages that follow it in its channel. *)
Theorem X16_negative_window_counts_from_end (slack_data github_data : value)
    (user_id : string) (w : Z) (facts : list value) :
  extract_peer_kudos slack_data github_data user_id w = Ok facts →
  ∃ yss,
    facts = mjoin yss ∧
    Forall2 (acks_from_end_at user_id w) (positions slack_data) yss.
Proof.
  intros (yss & Hall & ->)%extract_peer_kudos_Ok_inv.
  exists yss. split; [done|].
  apply (Forall2_Forall_l _ _ _ _ (positions_indexed slack_data)) in Hall.
  eapply Forall2_impl; [exact Hall|].
  intros [ch [i msg]] ys [Hi Hat]. unfold acks_from_end_at. cbv zeta.
  cbn [fst snd] in *. intros Hq Hw. unfold kudos_at in Hat.
  cbn [fst snd] in Hat. rewrite Hq in Hat.
  destruct Hat as (snippet & ack_lists & usage_lists & Hsn & Hacks & Hus & ->).
  exists snippet, (mjoin ack_lists), (mjoin usage_lists).
  split; [done|]. split; [done|]. split; [by eapply usage_lists_typed|].
  apply lookup_lt_Some in Hi. split; intros Hcase.
  - rewrite slice_negative_near in Hacks by lia. by inversion Hacks.
  - rewrite slice_negative_far in Hacks by (done || lia).
    by apply ack_lists_others.
Qed.

Lemma X16_negative_window_counts_from_end_witness :
  ∃ yss,
    [VDict {[ "from_user" := VStr "A"; "to_user" := VStr "B";
              "channel" := VStr "dev"; "code_snippet" := VStr "x = 1";
              "ack_text" := VStr "thanks"; "type" := VStr "slack_ack" ]}]
      = mjoin yss ∧
    Forall2 (acks_from_end_at "A" (-3)) (positions Examples.slack_acks) yss.
Proof.
  apply (X16_negative_window_counts_from_end Examples.slack_acks
           Examples.github_ab "A" (-3)).
  vm_compute. reflexivity.
Defined.

(** X17: the kudos scan only concerns code the personal message
    extractor lists.  When both return on the same document and user,
    the snippet of every kudos fact is the text of one of the user's
    listed messages, and that message's code flag is true. *)
Theorem X17_kudos_snippets_are_own_messages (slack_data github_data : value)
    (user_id : string) (w : Z) (own facts : list value) (fact : value) :
  get_user_slack_messages slack_data user_id = Ok own →
  extract_peer_kudos slack_data github_data user_id w = Ok facts →
  fact ∈ facts →
  ∃ record,
    record ∈ own ∧
    field "text" record = field "code_snippet" fact ∧
    Py.truthy (field "contains_code" record) = true.
Proof.
  intros Hown Hk Hin.
  destruct (kudos_fact_origin _ _ _ _ _ _ Hk Hin)
    as ([ch [i msg]] & snippet & Hp & Hq & Hsn & Horigin).
  cbn [fst snd] in *. apply andb_prop in Hq as [Hby Hcc].
  assert (field "code_snippet" fact = snippet) as ->.
  { destruct Horigin as [(fu & _ & _ & to & cid & text & _ & _ & _ & ->)
                        |(c & _ & _ & to & sha & _ & _ & ->)]; done. }
  rewrite get_user_slack_messages_scan in Hown.
  apply scan_channels_Ok_inv in Hown as (yss & Hall & ->).
  2:{ intros c _ [j m]. apply slack_messages_step_appends. }
  2:{ intros c _ [j m] ys (Hd & _)%(slack_messages_step_Ok _ _ j). done. }
  destruct (Forall2_join_at _ _ _ _ Hall Hp) as (ys & Hys & Hsub).
  cbn [fst snd] in Hys.
  apply (slack_messages_step_Ok _ _ i) in Hys as (Hd & o & -> & Ho).
  unfold own_message_at in Ho. cbn [fst snd] in Ho. rewrite Hby in Ho.
  destruct Ho as (out & (cid & ts & text & _ & _ & Htext & ->) & ->).
  eexists. split; [apply Hsub, list_elem_of_singleton; reflexivity|].
  rewrite Hsn in Htext. injection Htext as <-. split; [done|].
  change (field "contains_code" _) with (flag_or_false msg).
  destruct msg as [| | | | |d]; try done.
  unfold contains_code in Hcc. simpl in *. by rewrite truthy_code_default.
Qed.

Lemma X17_kudos_snippets_are_own_messages_witness :
  ∃ record,
    record ∈ [VDict {[ "channel" := VStr "dev"; "timestamp" := VStr "0";
                       "text" := VStr "a b";
                       "contains_code" := VBool true ]}] ∧
    field "text" record = field "code_snippet" Examples.usage_ab ∧
    Py.truthy (field "contains_code" record) = true.
Proof.
  apply (X17_kudos_snippets_are_own_messages
           (slack_doc ∅ [VDict {[ "channel_id" := VStr "dev";
              "messages" := VList [
                VDict {[ "user" := VStr "A"; "ts" := VStr "0";
                         "text" := VStr "a b";
                         "contains_code" := VBool true ]} ] ]}])
           Examples.github_ab "A" 3 _ [Examples.usage_ab]).
  - vm_compute. reflexivity.
  - vm_compute. reflexivity.
  - apply list_elem_of_singleton. reflexivity.
Defined.
